(** * x402-fetch-mcp: a shallow embedding of [index.js]

    The server has one module, [index.js].  Its top level reads the
    configuration from the environment and either exits or builds the wallet
    and the payment-aware [x402Fetch]; its [CallToolRequestSchema] handler
    serves the two tools [x402_fetch] and [x402_wallet_info].

    JavaScript values are modelled by the inductive [value], numbers by the
    binary64 instance of [SpecFloat], strings by [string], promises and
    exceptions by a writer/exception monad [M] whose log records what is
    written with [console.error] and which requests are handed to
    [x402Fetch].  Functions of the JavaScript platform and of the imported
    packages are the fields of the class [Platform] and of the record
    [Runtime]. *)

From Stdlib Require Import ZArith List String Ascii Bool Lia.
From Stdlib Require Import DecimalString SpecFloat.
Import ListNotations.

Local Open Scope list_scope.
Local Open Scope string_scope.

Set Warnings "-register-all".

(** ** JavaScript values *)

Module JS.

(** An [Error] object, as far as the handler looks at it: its [message]. *)
Record Error : Type := mkError { message : string }.

Inductive value : Type :=
| Undefined
| Null
| Bool (b : bool)
| Num (x : spec_float)
| Str (s : string)
| Arr (elems : list value)
| Obj (props : list (string * value)).

(** Binary64: 53 bits of precision, exponents below 1024. *)
Definition prec : Z := 53.
Definition emax : Z := 1024.

(** The Number value of a mathematical integer. *)
Definition of_Z (z : Z) : spec_float := binary_normalize prec emax z 0 false.

(** [x / y] on Numbers. *)
Definition div (x y : spec_float) : spec_float := SFdiv prec emax x y.

Definition nonempty (s : string) : bool :=
  match s with EmptyString => false | String _ _ => true end.

(** ToBoolean. *)
Definition truthy (v : value) : bool :=
  match v with
  | Undefined | Null => false
  | Bool b => b
  | Num (S754_zero _) | Num S754_nan => false
  | Num _ => true
  | Str s => nonempty s
  | Arr _ | Obj _ => true
  end.

(** [a || b] on values. *)
Definition or (a b : value) : value := if truthy a then a else b.

(** [a || b] where [a] is a string or [null] (a header lookup). *)
Definition truthy_opt (a : option string) : bool :=
  match a with Some s => nonempty s | None => false end.

Definition or_opt (a b : option string) : option string :=
  if truthy_opt a then a else b.

(** The string of a lookup that is known to be truthy. *)
Definition the_string (a : option string) : string :=
  match a with Some s => s | None => "" end.

(** [a || d] where [a] is a string or [null] and [d] a string. *)
Definition or_str (a : option string) (d : string) : string :=
  match a with
  | Some s => if nonempty s then s else d
  | None => d
  end.

(** Own-property lookup in the property list of an object. *)
Fixpoint lookup (k : string) (props : list (string * value)) : option value :=
  match props with
  | [] => None
  | (k', v) :: rest => if String.eqb k k' then Some v else lookup k rest
  end.

(** [String.prototype.includes]. *)
Definition includes (needle hay : string) : bool :=
  match String.index 0 needle hay with Some _ => true | None => false end.

(** Decimal digits of an integer, as in [`${n}`] for an integer Number. *)
Definition string_of_Z (z : Z) : string := NilZero.string_of_int (Z.to_int z).

End JS.

(** ** Printing Numbers

    ECMA-262: Number::toString and Number.prototype.toFixed(fractionDigits)
    at six fraction digits. *)

Module NumberFormat.

Import JS.

Definition digit_char (d : Z) : ascii := ascii_of_nat (48 + Z.to_nat d).

(** The decimal digits of [n >= 0], most significant first; ["0"] for 0.
    [fuel] bounds the number of digits. *)
Fixpoint digits_aux (fuel : nat) (n : Z) (acc : list ascii) : list ascii :=
  match fuel with
  | O => acc
  | S fuel' =>
      let acc' := digit_char (n mod 10) :: acc in
      if (n / 10 =? 0)%Z then acc' else digits_aux fuel' (n / 10) acc'
  end.

Definition digits (n : Z) : list ascii := digits_aux (S (Z.to_nat (Z.log2 n))) n [].

(** Step 10 of toFixed for [f] fraction digits: the digits of [n], padded
    with zeros to [f + 1] characters, with a point before the last [f]. *)
Definition point_at (f : nat) (m : list ascii) : list ascii :=
  let k := List.length m in
  let m := if (k <=? f)%nat then (List.repeat "0"%char (f + 1 - k) ++ m)%list else m in
  let k := List.length m in
  (firstn (k - f) m ++ "."%char :: skipn (k - f) m)%list.

(** The integer [n] for which [n / 10^6 - m * 2^e] is closest to zero, the
    larger one of two. *)
Definition nearest_micro (m : positive) (e : Z) : Z :=
  match e with
  | Zneg p => (2 * Zpos m * 10 ^ 6 + 2 ^ Zpos p) / 2 ^ (Zpos p + 1)
  | _ => Zpos m * 2 ^ e * 10 ^ 6
  end.

(** [x >= 10^21] for the finite positive [x = m * 2^e]. *)
Definition at_least_1e21 (m : positive) (e : Z) : bool :=
  match e with
  | Zneg p => (10 ^ 21 * 2 ^ Zpos p <=? Zpos m)%Z
  | _ => (10 ^ 21 <=? Zpos m * 2 ^ e)%Z
  end.

(** The Number nearest to [m * 10^e10], for [m >= 0]. *)
Definition decimal_value (negative : bool) (m : Z) (e10 : Z) : spec_float :=
  match m with
  | Zpos p =>
      match e10 with
      | Zneg k => SFdiv prec emax (S754_finite negative p 0)
                    (S754_finite false (Pos.pow 10 k) 0)
      | _ => of_Z ((if negative then -1 else 1) * m * 10 ^ e10)
      end
  | _ => S754_zero negative
  end.

Definition same_number (x y : spec_float) : bool :=
  match x, y with
  | S754_finite s1 m1 e1, S754_finite s2 m2 e2 =>
      (Bool.eqb s1 s2 && Pos.eqb m1 m2 && Z.eqb e1 e2)%bool
  | _, _ => false
  end.

(** The least [n], from [n] on, with [num / den < 10^n]. *)
Fixpoint magnitude (fuel : nat) (num den n : Z) : Z :=
  match fuel with
  | O => n
  | S fuel' =>
      let below :=
        match n with
        | Zneg k => (num * 10 ^ Zpos k <? den)%Z
        | _ => (num <? 10 ^ n * den)%Z
        end in
      if below then n else magnitude fuel' num den (n + 1)
  end.

(** Number::toString, step 5: integers [s] and [n] with [s] of as few digits
    [k] as possible and [s * 10^(n-k)] rounding to [x = num / den], [s] the
    closer one of two; tried for [k], [k + 1], ... *)
Fixpoint shortest (fuel : nat) (k : Z) (x : spec_float) (num den n : Z) : Z * Z :=
  match fuel with
  | O => (0%Z, n)
  | S fuel' =>
      let p := (n - k)%Z in
      let lo :=
        match p with
        | Zneg q => (num * 10 ^ Zpos q / den)%Z
        | _ => (num / (den * 10 ^ p))%Z
        end in
      let hi := (lo + 1)%Z in
      let lo_ok := same_number x (decimal_value false lo p) in
      let hi_ok := same_number x (decimal_value false hi p) in
      let hi_closer :=
        match p with
        | Zneg q => ((2 * lo + 1) * den <? 2 * num * 10 ^ Zpos q)%Z
        | _ => ((2 * lo + 1) * 10 ^ p * den <? 2 * num)%Z
        end in
      if (hi_ok && (negb lo_ok || hi_closer))%bool then
        if (hi =? 10 ^ k)%Z then (1%Z, (n + 1)%Z) else (hi, n)
      else if lo_ok then (lo, n)
      else shortest fuel' (k + 1)%Z x num den n
  end.

Definition zeros (n : Z) : list ascii := List.repeat "0"%char (Z.to_nat n).

(** Number::toString for a finite positive Number, steps 5-11. *)
Definition toString_finite (m : positive) (e : Z) : list ascii :=
  let '(num, den) :=
    match e with
    | Zneg p => (Zpos m, 2 ^ Zpos p)%Z
    | _ => (Zpos m * 2 ^ e, 1)%Z
    end in
  let '(s, n) :=
    shortest 17 1 (S754_finite false m e) num den (magnitude 700 num den (-330)) in
  let ds := digits s in
  let k := Z.of_nat (List.length ds) in
  let expo :=
    ("e"%char :: (if (n - 1 <? 0)%Z then "-"%char else "+"%char) :: digits (Z.abs (n - 1)))%list in
  if ((k <=? n) && (n <=? 21))%Z%bool then (ds ++ zeros (n - k))%list
  else if ((0 <? n) && (n <=? 21))%Z%bool then
    (firstn (Z.to_nat n) ds ++ "."%char :: skipn (Z.to_nat n) ds)%list
  else if ((-6 <? n) && (n <=? 0))%Z%bool then
    ("0"%char :: "."%char :: zeros (- n) ++ ds)%list
  else
    match ds with
    | [] => expo
    | [d] => (d :: expo)%list
    | d :: rest => (d :: "."%char :: rest ++ expo)%list
    end.

(** Number::toString. *)
Definition toString (x : spec_float) : string :=
  match x with
  | S754_nan => "NaN"
  | S754_zero _ => "0"
  | S754_infinity false => "Infinity"
  | S754_infinity true => "-Infinity"
  | S754_finite s m e =>
      (if s then "-" else "") ++ string_of_list_ascii (toString_finite m e)
  end.

(** [x.toFixed(6)]. *)
Definition toFixed6 (x : spec_float) : string :=
  match x with
  | S754_nan | S754_infinity _ => toString x
  | S754_zero _ => string_of_list_ascii (point_at 6 (digits 0))
  | S754_finite s m e =>
      let sign := if s then "-" else "" in
      if at_least_1e21 m e
      then sign ++ toString (S754_finite false m e)
      else sign ++ string_of_list_ascii (point_at 6 (digits (nearest_micro m e)))
  end.

End NumberFormat.

(** ** Promises, exceptions and the console

    A computation of the handler writes lines with [console.error], hands
    requests to [x402Fetch], and either returns or throws.  What it wrote
    before a throw stays written. *)

Module Eff.

Import JS.

Record FetchOptions : Type := mkOptions {
  opt_method : string;
  opt_headers : list (string * string);
  opt_body : option string
}.

Inductive effect : Type :=
| ConsoleError (line : string)
| Fetched (url : string) (init : FetchOptions).

Definition M (A : Type) : Type := (list effect * (Error + A))%type.

Definition ret {A} (a : A) : M A := ([], inr a).

Definition throw {A} (e : Error) : M A := ([], inl e).

Definition bind {A B} (m : M A) (k : A -> M B) : M B :=
  match m with
  | (w, inl e) => (w, inl e)
  | (w, inr a) => let '(w', r) := k a in ((w ++ w')%list, r)
  end.

(** [try { m } catch (e) { h e }]. *)
Definition try_catch {A} (m : M A) (h : Error -> M A) : M A :=
  match m with
  | (w, inl e) => let '(w', r) := h e in ((w ++ w')%list, r)
  | (w, inr a) => (w, inr a)
  end.

(** [await p] for a promise that settles to [r]. *)
Definition await {A} (r : Error + A) : M A := ([], r).

Definition console_error (line : string) : M unit := ([ConsoleError line], inr tt).

(** [await f(url, init)] for a fetch function whose promise settles to [r]:
    the request is recorded, then the promise is awaited. *)
Definition await_fetch {A} (url : string) (init : FetchOptions) (r : Error + A) : M A :=
  ([Fetched url init], r).

Definition trace {A} (m : M A) : list effect := fst m.
Definition outcome {A} (m : M A) : Error + A := snd m.

End Eff.

Declare Scope eff_scope.
Delimit Scope eff_scope with eff.
Notation "x <- m ;; k" := (Eff.bind m (fun x => k))
  (at level 61, m at next level, right associativity) : eff_scope.
Notation "m ;; k" := (Eff.bind m (fun _ => k))
  (at level 61, right associativity) : eff_scope.

(** ** Responses and their headers *)

Module Http.

Import JS.

Definition lower (c : ascii) : ascii :=
  let n := nat_of_ascii c in
  if ((65 <=? n) && (n <=? 90))%nat then ascii_of_nat (n + 32) else c.

Fixpoint lowercase (s : string) : string :=
  match s with
  | EmptyString => EmptyString
  | String c s' => String (lower c) (lowercase s')
  end.

(** The header list of a response, in the order received. *)
Definition Headers : Type := list (string * string).

Definition values_of (name : string) (h : Headers) : list string :=
  map snd (filter (fun nv => String.eqb (lowercase (fst nv)) (lowercase name)) h).

(** [Headers.prototype.get]: [null] when no header has the name, else the
    values of the headers of that name joined with a comma and a space. *)
Definition get (h : Headers) (name : string) : option string :=
  match values_of name h with
  | [] => None
  | vs => Some (String.concat ", " vs)
  end.

(** A response: [body] is what reading the body stream to the end as text
    gives, the text or the error the read rejects with. *)
Record Response : Type := mkResponse {
  status : Z;
  statusText : string;
  headers : Headers;
  body : Error + string
}.

End Http.

(** ** The platform and the imported packages

    What [index.js] calls and does not define: [atob], [JSON], the string
    conversions of the language, and the functions and constants it imports
    from [viem], [x402-fetch] and the MCP SDK. *)

Module Env.

Import JS Eff Http.

(** A chain description of [viem/chains]. *)
Record Chain : Type := mkChain { chain_id : Z; chain_name : string }.

Record WalletClient : Type := mkWallet {
  wallet_address : string;
  wallet_chain : Chain
}.

(** A fetch function: the promise it returns for a URL and options. *)
Definition Fetch : Type := string -> FetchOptions -> Error + Response.

Class Platform : Type := {
  (** [atob(s)]: the decoded string, or the error it throws. *)
  atob : string -> Error + string;
  (** [JSON.parse(s)]. *)
  JSON_parse : string -> Error + value;
  (** [JSON.stringify(v, null, 2)] for a value that [JSON.parse] returned. *)
  JSON_stringify : value -> string;
  (** ToString, the conversion a template literal applies: the string, or
      the TypeError it throws on an object that has no usable [toString]. *)
  ToString : value -> Error + string;
  (** StringToNumber, the conversion [Number] applies to a string. *)
  StringToNumber : string -> spec_float;
  (** [BigInt(s)]. *)
  BigInt : string -> Error + Z;
  (** [privateKeyToAccount(key).address]. *)
  privateKeyToAccount : string -> Error + string;
  (** [base] and [baseSepolia] of [viem/chains]. *)
  base : Chain;
  baseSepolia : Chain;
  (** [wrapFetchWithPayment(fetch, walletClient, maxValue)] of [x402-fetch],
      with the global [fetch]. *)
  wrapFetchWithPayment : WalletClient -> Z -> Fetch;
  (** [server.connect(new StdioServerTransport())]. *)
  connect : Error + unit;
  (** What [console.error] prints for an error object that follows a label. *)
  inspect : Error -> string
}.

(** [process.env]. *)
Definition Environment : Type := string -> option string.

End Env.

(** ** index.js *)

Module Index.

Import JS Eff Http Env NumberFormat.

Local Open Scope eff_scope.

(** The module-level constants the handlers close over. *)
Record Runtime : Type := mkRuntime {
  NETWORK : string;
  chain : Chain;
  account_address : string;
  maxPaymentUSDC : Z;
  x402Fetch : Fetch
}.

(** How the process stands after the top level of the module has run. *)
Inductive Process : Type :=
| Exited (code : Z)
| Crashed (e : Error)
| Serving (rt : Runtime).

(** Lines 218-228: [main]. *)
Definition main `{Platform} (rt : Runtime) : M unit :=
  console_error "[x402-fetch-mcp] Starting server..." ;;
  console_error ("[x402-fetch-mcp] Wallet: " ++ account_address rt) ;;
  console_error ("[x402-fetch-mcp] Network: " ++ chain_name (chain rt)) ;;
  await connect ;;
  console_error "[x402-fetch-mcp] Server running on stdio".

(** Lines 15-35 and 230-233: the top level of the module.  The result is
    what was written to the console and how the process stands. *)
Definition startup `{Platform} (env : Environment) : list effect * Process :=
  let PRIVATE_KEY := env "PRIVATE_KEY" in
  let NETWORK := or_str (env "NETWORK") "baseSepolia" in
  if negb (truthy_opt PRIVATE_KEY) then
    ([ConsoleError "PRIVATE_KEY environment variable is required"], Exited 1)
  else
    let chain := if String.eqb NETWORK "base" then base else baseSepolia in
    match privateKeyToAccount (the_string PRIVATE_KEY) with
    | inl e => ([], Crashed e)
    | inr address =>
        let walletClient := mkWallet address chain in
        match BigInt (or_str (env "MAX_PAYMENT_USDC") "1000000") with
        | inl e => ([], Crashed e)
        | inr maxPaymentUSDC =>
            let x402Fetch := wrapFetchWithPayment walletClient maxPaymentUSDC in
            let rt := mkRuntime NETWORK chain address maxPaymentUSDC x402Fetch in
            match main rt with
            | (w, inr _) => (w, Serving rt)
            | (w, inl error) =>
                ((w ++ [ConsoleError ("[x402-fetch-mcp] Fatal error: " ++ inspect error)])%list,
                 Exited 1)
            end
        end
    end.

(** The arguments of the tool [x402_fetch], by its input schema. *)
Record Args : Type := mkArgs {
  arg_url : string;
  arg_method : option string;
  arg_headers : option (list (string * string));
  arg_body : option string
}.

Record CallToolRequest : Type := mkRequest {
  req_name : string;
  req_arguments : option Args
}.

(** [paymentInfo], lines 139-145. *)
Record PaymentInfo : Type := mkPayment {
  txHash : value;
  amount : option string;
  amountRaw : value;
  network : string;
  settled : value
}.

(** The object the handler serialises into the text of its result. *)
Inductive Outcome : Type :=
| Success (status : Z) (statusText : string) (paymentMade : bool)
          (payment : option PaymentInfo) (content : string)
| Failure (error : string).

Inductive Text : Type :=
| OutcomeJson (o : Outcome)
| WalletJson (address network chain : string)
| Plain (s : string).

Record CallToolResult : Type := mkResult {
  text : Text;
  isError : bool
}.

(** [Number(v)] for a value that [JSON.parse] returned.  An object is
    converted through its [valueOf] and [toString]: a parsed object, whose
    own properties are never functions, inherits both unless it has an own
    property of that name; the inherited [valueOf] returns the object itself
    and the inherited [toString] gives "[object Object]", which is no number.
    With an own [toString] no conversion is left and [Number] throws.  An
    array is converted through [Array.prototype.toString]. *)
Definition Number `{Platform} (v : value) : Error + spec_float :=
  match v with
  | Undefined => inr S754_nan
  | Null => inr (S754_zero false)
  | Bool b => inr (if b then of_Z 1 else S754_zero false)
  | Num x => inr x
  | Str s => inr (StringToNumber s)
  | Arr _ =>
      match ToString v with
      | inl e => inl e
      | inr s => inr (StringToNumber s)
      end
  | Obj props =>
      match lookup "toString" props with
      | Some _ => inl (mkError "Cannot convert object to primitive value")
      | None => inr S754_nan
      end
  end.

(** [v.k] for one of the keys [amount], [txHash], [settled]: a TypeError on
    [null] and [undefined], the own property of an object, [undefined] on
    anything else. *)
Definition get_prop (v : value) (k : string) : M value :=
  match v with
  | Undefined | Null =>
      throw (mkError ("Cannot read properties of null (reading '" ++ k ++ "')"))
  | Obj props => ret (match lookup k props with Some x => x | None => Undefined end)
  | _ => ret Undefined
  end.

(** Lines 103-110: the options handed to [x402Fetch]. *)
Definition fetchOptions (method : string) (headers : list (string * string))
  (body : option string) : FetchOptions :=
  if (truthy_opt body &&
      (String.eqb method "POST" || String.eqb method "PUT" || String.eqb method "PATCH"))%bool
  then mkOptions method headers body
  else mkOptions method headers None.

(** Lines 122-127: the content of the response. *)
Definition read_content `{Platform} (response : Response) (contentType : string)
  : M string :=
  if includes "application/json" contentType then
    t <- await (body response) ;;
    j <- await (JSON_parse t) ;;
    ret (JSON_stringify j)
  else
    await (body response).

(** Lines 130-132. *)
Definition actualPaymentResponse (response : Response) : option string :=
  let paymentResponse := get (headers response) "x-payment-response" in
  let paymentResponseAlt := get (headers response) "payment-response" in
  or_opt paymentResponse paymentResponseAlt.

(** Line 138: [amountUsdc]. *)
Definition amountUsdc `{Platform} (decoded_amount : value) : M (option string) :=
  if truthy decoded_amount then
    x <- await (Number decoded_amount) ;;
    ret (Some (toFixed6 (div x (of_Z 1000000))))
  else ret None.

(** Lines 137-145: the inner [try] up to the assignment of [paymentInfo];
    the result is the object assigned. *)
Definition decode_payment `{Platform} (rt : Runtime) (header : string)
  : M PaymentInfo :=
  raw <- await (atob header) ;;
  decoded <- await (JSON_parse raw) ;;
  decoded_amount <- get_prop decoded "amount" ;;
  amountUsdc <- amountUsdc decoded_amount ;;
  decoded_txHash <- get_prop decoded "txHash" ;;
  decoded_settled <- get_prop decoded "settled" ;;
  ret {|
    txHash := or decoded_txHash Null;
    amount := match amountUsdc with
              | Some s => if nonempty s then Some (s ++ " USDC") else None
              | None => None
              end;
    amountRaw := or decoded_amount Null;
    network := chain_name (chain rt);
    settled := or decoded_settled (Bool false)
  |}.

(** Lines 146-150: the rest of the inner [try], with [paymentInfo] assigned. *)
Definition announce_payment `{Platform} (paymentInfo : PaymentInfo) : M unit :=
  console_error "[x402-fetch] ✅ PAYMENT MADE!" ;;
  shown_txHash <- await (ToString (or (txHash paymentInfo) (Str "N/A"))) ;;
  console_error ("[x402-fetch]    TX Hash: " ++ shown_txHash) ;;
  console_error ("[x402-fetch]    Amount: " ++ or_str (amount paymentInfo) "N/A") ;;
  console_error ("[x402-fetch]    Network: " ++ network paymentInfo) ;;
  shown_settled <- await (ToString (settled paymentInfo)) ;;
  console_error ("[x402-fetch]    Settled: " ++ shown_settled).

(** Lines 134-156.  The variable [paymentInfo] starts as [null]; the one
    [catch] of line 151 is reached with it still [null] when lines 137-145
    throw, and with the object already assigned when lines 146-150 throw. *)
Definition payment_info `{Platform} (rt : Runtime) (actual : option string)
  : M (option PaymentInfo) :=
  if truthy_opt actual then
    let caught :=
      console_error ("[x402-fetch] Payment response (raw): " ++ the_string actual) in
    try_catch
      (paymentInfo <- decode_payment rt (the_string actual) ;;
       try_catch (announce_payment paymentInfo ;; ret (Some paymentInfo))
         (fun e => caught ;; ret (Some paymentInfo)))
      (fun e => caught ;; ret None)
  else
    console_error "[x402-fetch] ℹ️ No payment was required or made" ;;
    ret None.

(** Lines 102-175: the body of the outer [try]. *)
Definition fetch_body `{Platform} (rt : Runtime) (url method : string)
  (headers : list (string * string)) (body : option string) : M CallToolResult :=
  let fetchOptions := fetchOptions method headers body in
  console_error "[x402-fetch] ========================================" ;;
  console_error ("[x402-fetch] Fetching: " ++ method ++ " " ++ url) ;;
  console_error ("[x402-fetch] Wallet: " ++ account_address rt) ;;
  response <- await_fetch url fetchOptions (x402Fetch rt url fetchOptions) ;;
  let contentType := or_str (get (Http.headers response) "content-type") "" in
  console_error ("[x402-fetch] Response status: " ++ string_of_Z (status response)
                 ++ " " ++ statusText response) ;;
  console_error ("[x402-fetch] Content-Type: " ++ contentType) ;;
  content <- read_content response contentType ;;
  let actual := actualPaymentResponse response in
  paymentInfo <- payment_info rt actual ;;
  console_error ("[x402-fetch] Content length: " ++
                 string_of_Z (Z.of_nat (String.length content)) ++ " chars") ;;
  console_error "[x402-fetch] ========================================" ;;
  ret {| text := OutcomeJson (Success (status response) (statusText response)
                                (truthy_opt actual) paymentInfo content);
         isError := false |}.

(** Lines 99-190: the tool [x402_fetch]. *)
Definition x402_fetch `{Platform} (rt : Runtime) (args : option Args)
  : M CallToolResult :=
  match args with
  | None =>
      throw (mkError "Cannot destructure property 'url' of 'args' as it is undefined.")
  | Some a =>
      let url := arg_url a in
      let method := match arg_method a with Some m => m | None => "GET" end in
      let headers := match arg_headers a with Some h => h | None => [] end in
      let body := arg_body a in
      try_catch (fetch_body rt url method headers body)
        (fun error =>
           ret {| text := OutcomeJson (Failure (message error)); isError := true |})
  end.

(** Lines 192-205: the tool [x402_wallet_info]. *)
Definition x402_wallet_info (rt : Runtime) : M CallToolResult :=
  ret {| text := WalletJson (account_address rt) (NETWORK rt) (chain_name (chain rt));
         isError := false |}.

(** Lines 96-216: the handler of [CallToolRequestSchema]. *)
Definition call_tool `{Platform} (rt : Runtime) (request : CallToolRequest)
  : M CallToolResult :=
  let name := req_name request in
  let args := req_arguments request in
  if String.eqb name "x402_fetch" then x402_fetch rt args
  else if String.eqb name "x402_wallet_info" then x402_wallet_info rt
  else ret {| text := Plain ("Unknown tool: " ++ name); isError := true |}.

End Index.

(** ** The challenge-retry client

    [index.js] obtains [x402Fetch] from [wrapFetchWithPayment] of the package
    [x402-fetch]; the body of that function is not among the sources. *)

Module Client.

Import JS Eff Http Env.

(** Modelled from the spec: the PaymentRequirement of section 3, issued by
    a server in a challenge; the missing [x402-fetch] package parses it. *)
Record PaymentRequirement : Type := mkRequirement {
  req_network : string;
  req_recipient : string;
  req_asset : string;
  req_amount : Z;
  req_expiry : Z;
  req_nonce : string
}.

(** Modelled from the spec: the PaymentAuthorization of section 3, produced
    by the signing identity inside the missing [x402-fetch] package. *)
Record PaymentAuthorization : Type := mkAuthorization {
  auth_signer : string;
  auth_amount : Z;
  auth_signature : string;
  auth_nonce : string;
  auth_valid_until : Z
}.

(** Modelled from the spec: the reasons and decisions of the Payment Policy
    (section 4.1), part of the missing [x402-fetch] package. *)
Inductive Reason : Type := CeilingExceeded | NetworkMismatch | Expired.

Inductive Decision : Type :=
| Accept (amount : Z)
| Reject (reason : Reason).

(** Modelled from the spec: the Payment Policy (section 4.1), a pure function
    of the requirement, the ceiling, the operating network and the clock.
    It is part of the missing [x402-fetch] package. *)
Definition decide (requirement : PaymentRequirement) (ceiling : Z)
  (operating : string) (now : Z) : Decision :=
  if (ceiling <? req_amount requirement)%Z then Reject CeilingExceeded
  else if negb (String.eqb (req_network requirement) operating) then Reject NetworkMismatch
  else if (req_expiry requirement <? now)%Z then Reject Expired
  else Accept (req_amount requirement).

(** Modelled from the spec: the collaborators of the client (sections 2 and
    6), which the missing [x402-fetch] package brings or is given: the codec,
    the signing identity, the clock, the network identifier of the
    configured chain and the transport.
    [transport k] answers the [k]-th request of a logical call, so a server
    may answer the retry differently. *)
Class Collaborators : Type := {
  parse_requirement : Response -> option PaymentRequirement;
  sign : PaymentRequirement -> Z -> Error + PaymentAuthorization;
  encode : PaymentAuthorization -> string;
  proof_header : string;
  clock : Z;
  network_id : Chain -> string;
  transport : nat -> Fetch
}.

(** Modelled from the spec: the results of [decodeChallenge] (section 4.2),
    part of the missing [x402-fetch] package. *)
Inductive Challenge : Type :=
| NotAChallenge
| Malformed
| Requirement (requirement : PaymentRequirement).

(** Modelled from the spec: [decodeChallenge] of the Payment Codec (sections
    4.2, 4.3 and 6): it triggers only on status 402, and a requirement that
    is absent, misshapen, zero or negative is malformed.  It is part of the
    missing [x402-fetch] package. *)
Definition decodeChallenge `{Collaborators} (response : Response) : Challenge :=
  if (status response =? 402)%Z then
    match parse_requirement response with
    | Some requirement =>
        if (req_amount requirement <=? 0)%Z then Malformed else Requirement requirement
    | None => Malformed
    end
  else NotAChallenge.

(** Modelled from the spec: the typed failures of section 7 that the client
    of the missing [x402-fetch] package raises. *)
Inductive Fault : Type :=
| MalformedChallenge
| PaymentDeclined (reason : Reason)
| DoublePaymentChallenge
| SigningFailure (e : Error)
| TransportFailure (e : Error).

Definition reason_name (r : Reason) : string :=
  match r with
  | CeilingExceeded => "ceiling-exceeded"
  | NetworkMismatch => "network-mismatch"
  | Expired => "expired"
  end.

Definition fault_message (f : Fault) : string :=
  match f with
  | MalformedChallenge => "MalformedChallenge"
  | PaymentDeclined r => "PaymentDeclined: " ++ reason_name r
  | DoublePaymentChallenge => "DoublePaymentChallenge"
  | SigningFailure e => "SigningFailure: " ++ message e
  | TransportFailure e => "TransportFailure: " ++ message e
  end.

(** Modelled from the spec: what the client of the missing [x402-fetch]
    package does during one logical call (section 4.3): the requests it sends
    and the signatures it asks for. *)
Inductive event : Type :=
| Sent (url : string) (init : FetchOptions)
| Signed (requirement : PaymentRequirement) (amount : Z).

(** Modelled from the spec: step 6 of section 4.3, the new request of the
    missing [x402-fetch] package, identical to the original plus the proof. *)
Definition attach (init : FetchOptions) (name proof : string) : FetchOptions :=
  mkOptions (opt_method init) ((opt_headers init) ++ [(name, proof)])%list (opt_body init).

(** Modelled from the spec: the Challenge-Retry Client (section 4.3, steps
    1-8 and the tie-break policy), the function [wrapFetchWithPayment]
    returns; its code is in the missing [x402-fetch] package.  The result is
    the list of requests sent and signatures asked for, and the response or
    the typed failure of the call. *)
Definition challenge_retry `{Collaborators} (ceiling : Z) (operating : string)
  (url : string) (init : FetchOptions) : list event * (Fault + Response) :=
  match transport 0 url init with
  | inl e => ([Sent url init], inl (TransportFailure e))
  | inr first =>
      match decodeChallenge first with
      | NotAChallenge => ([Sent url init], inr first)
      | Malformed => ([Sent url init], inl MalformedChallenge)
      | Requirement requirement =>
          match decide requirement ceiling operating clock with
          | Reject why => ([Sent url init], inl (PaymentDeclined why))
          | Accept amount =>
              match sign requirement amount with
              | inl e =>
                  ([Sent url init; Signed requirement amount], inl (SigningFailure e))
              | inr auth =>
                  let paid := attach init proof_header (encode auth) in
                  let sent := [Sent url init; Signed requirement amount; Sent url paid] in
                  match transport 1 url paid with
                  | inl e => (sent, inl (TransportFailure e))
                  | inr second =>
                      if (status second =? 402)%Z
                      then (sent, inl DoublePaymentChallenge)
                      else (sent, inr second)
                  end
              end
          end
      end
  end.

(** Modelled from the spec: the fetch function handed to the Request Facade
    (section 4.4 and section 7): a typed failure of the client reaches the
    facade as a thrown error whose message names it. *)
Definition wrapFetchWithPayment `{Collaborators} (walletClient : WalletClient)
  (maxValue : Z) : Fetch :=
  fun url init =>
    match snd (challenge_retry maxValue (network_id (wallet_chain walletClient)) url init) with
    | inl fault => inl (mkError (fault_message fault))
    | inr response => inr response
    end.

(** The signatures asked for and the requests sent in a list of events. *)
Definition signatures (evs : list event) : nat :=
  List.length (filter (fun ev => match ev with Signed _ _ => true | Sent _ _ => false end) evs).

Definition requests (evs : list event) : nat :=
  List.length (filter (fun ev => match ev with Sent _ _ => true | Signed _ _ => false end) evs).

End Client.

(** ** A reference platform

    Executable versions of the platform functions, for running the handler
    on concrete responses: forgiving-base64 [atob], a JSON reader and
    printer over byte strings, Number::toString, and a scripted server behind
    the challenge-retry client. *)

Module Reference.

Import JS Eff Http Env NumberFormat.

Definition quote : ascii := "034"%char.
Definition backslash : ascii := "092"%char.

Definition code (c : ascii) : Z := Z.of_nat (nat_of_ascii c).

Definition between (lo hi : Z) (c : ascii) : bool :=
  ((lo <=? code c) && (code c <=? hi))%Z%bool.

Definition is_digit (c : ascii) : bool := between 48 57 c.

(** *** atob *)

Definition sextet (c : ascii) : option Z :=
  if between 65 90 c then Some (code c - 65)%Z
  else if between 97 122 c then Some (code c - 71)%Z
  else if is_digit c then Some (code c + 4)%Z
  else if Ascii.eqb c "+" then Some 62%Z
  else if Ascii.eqb c "/" then Some 63%Z
  else None.

Definition is_space (c : ascii) : bool :=
  (Z.eqb (code c) 9 || Z.eqb (code c) 10 || Z.eqb (code c) 12 ||
   Z.eqb (code c) 13 || Z.eqb (code c) 32)%bool.

Fixpoint sextets (l : list ascii) : option (list Z) :=
  match l with
  | [] => Some []
  | c :: l' =>
      match sextet c, sextets l' with
      | Some v, Some vs => Some (v :: vs)
      | _, _ => None
      end
  end.

Definition byte (z : Z) : ascii := ascii_of_nat (Z.to_nat (z mod 256)).

Fixpoint bytes_of (fuel : nat) (l : list Z) : list ascii :=
  match fuel, l with
  | S fuel', a :: b :: c :: d :: rest =>
      let n := (a * 262144 + b * 4096 + c * 64 + d)%Z in
      byte (n / 65536) :: byte (n / 256) :: byte n :: bytes_of fuel' rest
  | _, [a; b; c] =>
      let n := (a * 4096 + b * 64 + c)%Z in
      [byte (n / 1024); byte (n / 4)]
  | _, [a; b] => [byte ((a * 64 + b) / 16)]
  | _, _ => []
  end.

Definition strip_padding (l : list ascii) : list ascii :=
  if (List.length l mod 4 =? 0)%nat then
    match rev l with
    | "="%char :: "="%char :: r => rev r
    | "="%char :: r => rev r
    | _ => l
    end
  else l.

Definition invalid_character : Error :=
  mkError "The string to be decoded is not correctly encoded.".

Definition atob (s : string) : Error + string :=
  let l := strip_padding (filter (fun c => negb (is_space c)) (list_ascii_of_string s)) in
  if (List.length l mod 4 =? 1)%nat then inl invalid_character
  else
    match sextets l with
    | Some vs => inr (string_of_list_ascii (bytes_of (List.length vs) vs))
    | None => inl invalid_character
    end.

(** *** JSON.parse *)

Definition is_json_space (c : ascii) : bool :=
  (Z.eqb (code c) 9 || Z.eqb (code c) 10 || Z.eqb (code c) 13 || Z.eqb (code c) 32)%bool.

Fixpoint skip_ws (l : list ascii) : list ascii :=
  match l with
  | c :: l' => if is_json_space c then skip_ws l' else l
  | [] => []
  end.

(** Leading digits of [l], their value appended to [acc], their number, and
    the rest. *)
Fixpoint read_digits (l : list ascii) (acc : Z) (n : nat) : Z * nat * list ascii :=
  match l with
  | c :: l' => if is_digit c then read_digits l' (acc * 10 + (code c - 48))%Z (S n)
               else (acc, n, l)
  | [] => (acc, n, [])
  end.

(** [-? int frac? exp?], the number grammar of JSON. *)
Definition read_number (l : list ascii) : option (spec_float * list ascii) :=
  let '(negative, l) :=
    match l with "-"%char :: l' => (true, l') | _ => (false, l) end in
  let '(int, n_int, rest) := read_digits l 0%Z 0%nat in
  let leading_zero := match l with "0"%char :: _ => true | _ => false end in
  if ((n_int =? 0)%nat || (leading_zero && (1 <? n_int)%nat))%bool then None
  else
    let frac :=
      match rest with
      | "."%char :: r =>
          let '(m, n, r') := read_digits r int 0%nat in
          if (n =? 0)%nat then None else Some (m, Z.of_nat n, r')
      | _ => Some (int, 0%Z, rest)
      end in
    match frac with
    | None => None
    | Some (m, n_frac, rest) =>
        let is_e c := (Ascii.eqb c "e" || Ascii.eqb c "E")%bool in
        match rest with
        | c :: r =>
            if is_e c then
              let '(minus, r) :=
                match r with
                | "-"%char :: r' => (true, r')
                | "+"%char :: r' => (false, r')
                | _ => (false, r)
                end in
              let '(ex, n, r') := read_digits r 0%Z 0%nat in
              if (n =? 0)%nat then None
              else Some (decimal_value negative m ((if minus then - ex else ex) - n_frac), r')
            else Some (decimal_value negative m (- n_frac), rest)
        | [] => Some (decimal_value negative m (- n_frac), rest)
        end
    end.

Definition hex_digit (c : ascii) : option Z :=
  if is_digit c then Some (code c - 48)%Z
  else if between 97 102 c then Some (code c - 87)%Z
  else if between 65 70 c then Some (code c - 55)%Z
  else None.

(** The characters of a string literal after its opening quote.  Code units
    above 255 are outside the string model and refused. *)
Fixpoint read_string (fuel : nat) (l : list ascii) (acc : list ascii)
  : option (string * list ascii) :=
  match fuel with
  | O => None
  | S fuel' =>
      match l with
      | [] => None
      | c :: l' =>
          if Ascii.eqb c quote then Some (string_of_list_ascii (rev acc), l')
          else if Ascii.eqb c backslash then
            match l' with
            | "u"%char :: a :: b :: c' :: d :: r =>
                match hex_digit a, hex_digit b, hex_digit c', hex_digit d with
                | Some 0%Z, Some 0%Z, Some x, Some y =>
                    read_string fuel' r (byte (x * 16 + y) :: acc)
                | _, _, _, _ => None
                end
            | e :: r =>
                let plain (x : ascii) := read_string fuel' r (x :: acc) in
                if Ascii.eqb e quote then plain quote
                else if Ascii.eqb e backslash then plain backslash
                else if Ascii.eqb e "/" then plain "/"%char
                else if Ascii.eqb e "b" then plain "008"%char
                else if Ascii.eqb e "f" then plain "012"%char
                else if Ascii.eqb e "n" then plain "010"%char
                else if Ascii.eqb e "r" then plain "013"%char
                else if Ascii.eqb e "t" then plain "009"%char
                else None
            | [] => None
            end
          else if (code c <? 32)%Z then None
          else read_string fuel' l' (c :: acc)
      end
  end.

(** [JSON.parse] keeps the last of several members with one key. *)
Fixpoint set_prop (k : string) (v : value) (props : list (string * value))
  : list (string * value) :=
  match props with
  | [] => [(k, v)]
  | (k', v') :: rest =>
      if String.eqb k k' then (k, v) :: rest else (k', v') :: set_prop k v rest
  end.

Definition literal (word : string) (v : value) (l : list ascii)
  : option (value * list ascii) :=
  let w := list_ascii_of_string word in
  if String.eqb (string_of_list_ascii (firstn (List.length w) l)) word
  then Some (v, skipn (List.length w) l) else None.

Fixpoint read_value (fuel : nat) (l : list ascii) : option (value * list ascii) :=
  match fuel with
  | O => None
  | S fuel' =>
      match skip_ws l with
      | [] => None
      | c :: r =>
          if Ascii.eqb c "{" then
            match skip_ws r with
            | "}"%char :: r' => Some (Obj [], r')
            | _ => read_members fuel' r []
            end
          else if Ascii.eqb c "[" then
            match skip_ws r with
            | "]"%char :: r' => Some (Arr [], r')
            | _ => read_elements fuel' r []
            end
          else if Ascii.eqb c quote then
            match read_string (S (List.length r)) r [] with
            | Some (s, r') => Some (Str s, r')
            | None => None
            end
          else if Ascii.eqb c "t" then literal "true" (Bool true) (c :: r)
          else if Ascii.eqb c "f" then literal "false" (Bool false) (c :: r)
          else if Ascii.eqb c "n" then literal "null" Null (c :: r)
          else
            match read_number (c :: r) with
            | Some (x, r') => Some (Num x, r')
            | None => None
            end
      end
  end
with read_elements (fuel : nat) (l : list ascii) (acc : list value)
  : option (value * list ascii) :=
  match fuel with
  | O => None
  | S fuel' =>
      match read_value fuel' l with
      | Some (v, r) =>
          match skip_ws r with
          | ","%char :: r' => read_elements fuel' r' (v :: acc)
          | "]"%char :: r' => Some (Arr (rev (v :: acc)), r')
          | _ => None
          end
      | None => None
      end
  end
with read_members (fuel : nat) (l : list ascii) (acc : list (string * value))
  : option (value * list ascii) :=
  match fuel with
  | O => None
  | S fuel' =>
      match skip_ws l with
      | c :: r =>
          if Ascii.eqb c quote then
            match read_string (S (List.length r)) r [] with
            | Some (k, r1) =>
                match skip_ws r1 with
                | ":"%char :: r2 =>
                    match read_value fuel' r2 with
                    | Some (v, r3) =>
                        match skip_ws r3 with
                        | ","%char :: r4 => read_members fuel' r4 (set_prop k v acc)
                        | "}"%char :: r4 => Some (Obj (set_prop k v acc), r4)
                        | _ => None
                        end
                    | None => None
                    end
                | _ => None
                end
            | None => None
            end
          else None
      | [] => None
      end
  end.

Definition JSON_parse (s : string) : Error + value :=
  let l := list_ascii_of_string s in
  match read_value (S (List.length l)) l with
  | Some (v, rest) =>
      match skip_ws rest with
      | [] => inr v
      | _ => inl (mkError "Unexpected non-whitespace character after JSON")
      end
  | None => inl (mkError "Unexpected token in JSON")
  end.

(** *** JSON.stringify(v, null, 2) *)

Definition newline : string := String "010"%char EmptyString.

Definition hex_char (z : Z) : ascii :=
  if (z <? 10)%Z then ascii_of_nat (Z.to_nat (48 + z)) else ascii_of_nat (Z.to_nat (87 + z)).

Fixpoint escape (s : string) : string :=
  match s with
  | EmptyString => EmptyString
  | String c s' =>
      let rest := escape s' in
      let esc (x : ascii) := String backslash (String x rest) in
      if Ascii.eqb c quote then esc quote
      else if Ascii.eqb c backslash then esc backslash
      else if Z.eqb (code c) 8 then esc "b"%char
      else if Z.eqb (code c) 12 then esc "f"%char
      else if Z.eqb (code c) 10 then esc "n"%char
      else if Z.eqb (code c) 13 then esc "r"%char
      else if Z.eqb (code c) 9 then esc "t"%char
      else if (code c <? 32)%Z then
        String backslash
          ("u00" ++ String (hex_char (code c / 16)) (String (hex_char (code c mod 16)) rest))
      else String c rest
  end.

Definition quoted (s : string) : string :=
  String quote (escape s ++ String quote EmptyString).

Definition is_finite (x : spec_float) : bool :=
  match x with S754_finite _ _ _ | S754_zero _ => true | _ => false end.

Fixpoint stringify (indent : string) (v : value) {struct v} : string :=
  let inner := indent ++ "  " in
  match v with
  | Undefined | Null => "null"
  | Bool b => if b then "true" else "false"
  | Num x => if is_finite x then toString x else "null"
  | Str s => quoted s
  | Arr [] => "[]"
  | Arr elems =>
      "[" ++ newline ++ inner ++
      String.concat ("," ++ newline ++ inner) (map (stringify inner) elems) ++
      newline ++ indent ++ "]"
  | Obj props =>
      let members :=
        (fix go (ps : list (string * value)) : list string :=
           match ps with
           | [] => []
           | (k, x) :: rest =>
               match x with
               | Undefined => go rest
               | _ => (quoted k ++ ": " ++ stringify inner x) :: go rest
               end
           end) props in
      match members with
      | [] => "{}"
      | _ => "{" ++ newline ++ inner ++
             String.concat ("," ++ newline ++ inner) members ++
             newline ++ indent ++ "}"
      end
  end.

Definition JSON_stringify (v : value) : string := stringify "" v.

(** *** ToString *)

Definition no_primitive : Error := mkError "Cannot convert object to primitive value".

Fixpoint ToString (v : value) : Error + string :=
  match v with
  | Undefined => inr "undefined"
  | Null => inr "null"
  | Bool b => inr (if b then "true" else "false")
  | Num x => inr (toString x)
  | Str s => inr s
  | Arr elems =>
      let joined :=
        (fix join (l : list value) : Error + list string :=
           match l with
           | [] => inr []
           | x :: rest =>
               let first :=
                 match x with
                 | Undefined | Null => inr ""
                 | _ => ToString x
                 end in
               match first with
               | inl e => inl e
               | inr t =>
                   match join rest with
                   | inl e => inl e
                   | inr ts => inr (t :: ts)
                   end
               end
           end) elems in
      match joined with
      | inl e => inl e
      | inr ts => inr (String.concat "," ts)
      end
  | Obj props =>
      match lookup "toString" props with
      | Some _ => inl no_primitive
      | None => inr "[object Object]"
      end
  end.

(** *** StringToNumber and StringToBigInt *)

Definition is_white (c : ascii) : bool := (between 9 13 c || Z.eqb (code c) 32)%bool.

Fixpoint trim_left (l : list ascii) : list ascii :=
  match l with
  | c :: l' => if is_white c then trim_left l' else l
  | [] => []
  end.

Definition trim (s : string) : list ascii :=
  rev (trim_left (rev (trim_left (list_ascii_of_string s)))).

(** The digits of [l] in the given radix, all of [l] or nothing. *)
Fixpoint radix_value (radix : Z) (l : list ascii) (acc : Z) : option Z :=
  match l with
  | [] => Some acc
  | c :: l' =>
      match hex_digit c with
      | Some d => if (d <? radix)%Z then radix_value radix l' (acc * radix + d)%Z else None
      | None => None
      end
  end.

(** A prefixed integer literal: [0x], [0o], [0b] and digits. *)
Definition prefixed (l : list ascii) : option Z :=
  match l with
  | "0"%char :: p :: (d :: _) as ds =>
      if (Ascii.eqb p "x" || Ascii.eqb p "X")%bool then radix_value 16 ds 0
      else if (Ascii.eqb p "o" || Ascii.eqb p "O")%bool then radix_value 8 ds 0
      else if (Ascii.eqb p "b" || Ascii.eqb p "B")%bool then radix_value 2 ds 0
      else None
  | _ => None
  end.

(** StrUnsignedDecimalLiteral: [Infinity], or digits with an optional
    fraction and exponent, one of the digit runs around the point present. *)
Definition unsigned_decimal (negative : bool) (l : list ascii) : spec_float :=
  if String.eqb (string_of_list_ascii l) "Infinity" then S754_infinity negative
  else
    let '(int, n_int, rest) := read_digits l 0%Z 0%nat in
    let '(m, n_frac, rest) :=
      match rest with
      | "."%char :: r => read_digits r int 0%nat
      | _ => (int, 0%nat, rest)
      end in
    if ((n_int + n_frac)%nat =? 0)%nat then S754_nan
    else
      match rest with
      | [] => decimal_value negative m (- Z.of_nat n_frac)
      | c :: r =>
          if (Ascii.eqb c "e" || Ascii.eqb c "E")%bool then
            let '(minus, r) :=
              match r with
              | "-"%char :: r' => (true, r')
              | "+"%char :: r' => (false, r')
              | _ => (false, r)
              end in
            match read_digits r 0%Z 0%nat with
            | (ex, S _, []) =>
                decimal_value negative m ((if minus then - ex else ex) - Z.of_nat n_frac)
            | _ => S754_nan
            end
          else S754_nan
      end.

Definition StringToNumber (s : string) : spec_float :=
  match trim s with
  | [] => S754_zero false
  | "-"%char :: l => unsigned_decimal true l
  | "+"%char :: l => unsigned_decimal false l
  | l =>
      match prefixed l with
      | Some z => of_Z z
      | None => unsigned_decimal false l
      end
  end.

Definition not_a_bigint (s : string) : Error :=
  mkError ("Cannot convert " ++ s ++ " to a BigInt").

Definition all_digits (s : string) (l : list ascii) (sign : Z) : Error + Z :=
  match l, read_digits l 0%Z 0%nat with
  | _ :: _, (z, _, []) => inr (sign * z)%Z
  | _, _ => inl (not_a_bigint s)
  end.

Definition BigInt (s : string) : Error + Z :=
  match trim s with
  | [] => inr 0%Z
  | "-"%char :: l => all_digits s l (-1)
  | "+"%char :: l => all_digits s l 1
  | l =>
      match prefixed l with
      | Some z => inr z
      | None => all_digits s l 1
      end
  end.

(** *** viem *)

Definition base : Chain := mkChain 8453 "Base".
Definition baseSepolia : Chain := mkChain 84532 "Base Sepolia".

(** A stand-in for the address derivation of [privateKeyToAccount]: it
    accepts what viem accepts, [0x] and 64 hexadecimal digits, and names the
    account after the last 40 of them. *)
Definition privateKeyToAccount (key : string) : Error + string :=
  match list_ascii_of_string key with
  | "0"%char :: "x"%char :: ds =>
      if ((List.length ds =? 64)%nat && forallb (fun c => match hex_digit c with Some _ => true | None => false end) ds)%bool
      then inr ("0x" ++ string_of_list_ascii (skipn 24 ds))
      else inl (mkError "invalid private key, expected hex or 32 bytes")
  | _ => inl (mkError "invalid private key, expected hex or 32 bytes")
  end.

(** *** The payment protocol over a scripted server *)

(** The integer a Number stands for, when it is one. *)
Definition to_integer (x : spec_float) : option Z :=
  match x with
  | S754_zero _ => Some 0%Z
  | S754_finite s m e =>
      let sign := if s then (-1)%Z else 1%Z in
      match e with
      | Zneg p => if (Zpos m mod 2 ^ Zpos p =? 0)%Z then Some (sign * (Zpos m / 2 ^ Zpos p))%Z else None
      | _ => Some (sign * Zpos m * 2 ^ e)%Z
      end
  | _ => None
  end.

Definition field (k : string) (props : list (string * value)) : string :=
  match lookup k props with Some (Str s) => s | _ => "" end.

(** The requirement of a challenge, read from the JSON body of the 402. *)
Definition parse_requirement (response : Response) : option Client.PaymentRequirement :=
  match body response with
  | inr t =>
      match JSON_parse t with
      | inr (Obj props) =>
          match lookup "amount" props with
          | Some (Num x) =>
              match to_integer x with
              | Some n =>
                  Some (Client.mkRequirement (field "network" props) (field "payTo" props)
                          (field "asset" props) n
                          (match lookup "expiry" props with
                           | Some (Num t) => match to_integer t with Some z => z | None => 0%Z end
                           | _ => 0%Z
                           end)
                          (field "nonce" props))
              | None => None
              end
          | _ => None
          end
      | _ => None
      end
  | inl _ => None
  end.

(** The server answers the [k]-th request of a call with the [k]-th entry of
    its script. *)
Definition scripted (script : list (Error + Response)) : nat -> Fetch :=
  fun k _ _ => nth k script (inl (mkError "fetch failed")).

Definition collaborators (address : string) (server : nat -> Fetch) : Client.Collaborators := {|
  Client.parse_requirement := parse_requirement;
  Client.sign := fun requirement amount =>
    inr (Client.mkAuthorization address amount
           ("signed:" ++ Client.req_recipient requirement ++ ":" ++ string_of_Z amount
            ++ ":" ++ Client.req_nonce requirement)
           (Client.req_nonce requirement) (Client.req_expiry requirement));
  Client.encode := fun auth =>
    Client.auth_signer auth ++ "|" ++ string_of_Z (Client.auth_amount auth) ++ "|" ++
    Client.auth_nonce auth ++ "|" ++ Client.auth_signature auth;
  Client.proof_header := "X-PAYMENT";
  Client.clock := 0%Z;
  Client.network_id := fun c =>
    if (chain_id c =? 8453)%Z then "base" else "base-sepolia";
  Client.transport := server
|}.

Definition platform (server : nat -> Fetch) : Platform := {|
  Env.atob := atob;
  Env.JSON_parse := JSON_parse;
  Env.JSON_stringify := JSON_stringify;
  Env.ToString := ToString;
  Env.StringToNumber := StringToNumber;
  Env.BigInt := BigInt;
  Env.privateKeyToAccount := privateKeyToAccount;
  Env.base := base;
  Env.baseSepolia := baseSepolia;
  Env.wrapFetchWithPayment := fun walletClient maxValue =>
    @Client.wrapFetchWithPayment (collaborators (wallet_address walletClient) server)
      walletClient maxValue;
  Env.connect := inr tt;
  Env.inspect := fun e => "Error: " ++ message e
|}.

End Reference.

(** ** Reading results and traces *)

Module Observe.

Import JS Eff Http Env Index NumberFormat.

(** The requests handed to [x402Fetch], in order. *)
Fixpoint issued (tr : list effect) : list (string * FetchOptions) :=
  match tr with
  | [] => []
  | Fetched url init :: tr' => (url, init) :: issued tr'
  | ConsoleError _ :: tr' => issued tr'
  end.

(** The lines written with [console.error], in order. *)
Fixpoint logged (tr : list effect) : list string :=
  match tr with
  | [] => []
  | ConsoleError line :: tr' => line :: logged tr'
  | Fetched _ _ :: tr' => logged tr'
  end.

(** The two names the settlement header is looked up under. *)
Definition primary : string := "x-payment-response".
Definition fallback : string := "payment-response".

(** The content type the handler computes on line 117. *)
Definition contentType (response : Response) : string :=
  or_str (get (headers response) "content-type") "".

(** The method the handler uses for the arguments (line 100). *)
Definition method_of (a : Args) : string :=
  match arg_method a with Some m => m | None => "GET" end.

Definition headers_of (a : Args) : list (string * string) :=
  match arg_headers a with Some h => h | None => [] end.

(** The request of an invocation with arguments [a]. *)
Definition request_of (a : Args) : FetchOptions :=
  fetchOptions (method_of a) (headers_of a) (arg_body a).

Definition success (response : Response) (paymentMade : bool)
  (payment : option PaymentInfo) (content : string) : CallToolResult :=
  {| text := OutcomeJson (Success (status response) (statusText response)
                            paymentMade payment content);
     isError := false |}.

Definition failure (e : Error) : CallToolResult :=
  {| text := OutcomeJson (Failure (message e)); isError := true |}.

(** [v.k] where it does not throw. *)
Definition prop (v : value) (k : string) : value :=
  match v with
  | Obj props => match lookup k props with Some x => x | None => Undefined end
  | _ => Undefined
  end.

Definition nullish (v : value) : bool :=
  match v with Undefined | Null => true | _ => false end.

(** Line 24: the chain the NETWORK variable selects. *)
Definition configured_chain `{Platform} (env : Environment) : Chain :=
  if String.eqb (or_str (env "NETWORK") "baseSepolia") "base" then base else baseSepolia.

(** The payment information a result carries, if any. *)
Definition payment_of (result : CallToolResult) : option PaymentInfo :=
  match text result with
  | OutcomeJson (Success _ _ _ payment _) => payment
  | _ => None
  end.

(** The line the inner [catch] writes (line 152). *)
Definition raw_line (header : string) : string :=
  "[x402-fetch] Payment response (raw): " ++ header.

(** The settlement header cannot be parsed: [atob] throws, or [JSON.parse]
    throws on what [atob] returned. *)
Definition decode_fails `{Platform} (header : string) : Prop :=
  (exists e, atob header = inl e) \/
  (exists raw e, atob header = inr raw /\ JSON_parse raw = inl e).

(** A decimal numeral with exactly six digits after the point: an optional
    minus sign, one or more digits, a point, six digits. *)
Definition is_digit (c : ascii) : bool :=
  ((48 <=? nat_of_ascii c) && (nat_of_ascii c <=? 57))%nat%bool.

Definition unsigned (l : list ascii) : list ascii :=
  match l with "-"%char :: l' => l' | _ => l end.

Definition six_places (s : string) : bool :=
  let l := unsigned (list_ascii_of_string s) in
  let k := List.length l in
  ((8 <=? k)%nat && forallb is_digit (firstn (k - 7) l) &&
   match skipn (k - 7) l with
   | "."%char :: frac => forallb is_digit frac
   | _ => false
   end)%bool.

(** [n] millionths written as a decimal with six places: the digits of
    [|n|], at least seven of them, with a point before the last six. *)
Definition millionths (n : Z) : string :=
  (if (n <? 0)%Z then "-" else "") ++
  string_of_list_ascii (point_at 6 (digits (Z.abs n))).

(** The mantissa of the Number 1000000, which is [million_m * 2^-33]. *)
Definition million_m : positive := 8589934592000000.

(** A Number that is finite and below 10^21 in magnitude. *)
Definition below_1e21 (x : spec_float) : bool :=
  match x with
  | S754_zero _ => true
  | S754_finite _ m e => negb (at_least_1e21 m e)
  | _ => false
  end.

End Observe.

(** ** Sample runs *)

Module Sample.

Import JS Eff Http Env Index.

Definition key : string :=
  "0x00000000000000000000000000000000000000000000000000000000000000a1".

Definition env : Environment :=
  fun name => if String.eqb name "PRIVATE_KEY" then Some key else None.

Definition address : string := "0x00000000000000000000000000000000000000a1".

(** The runtime [startup] builds from [env] over a scripted server. *)
Definition runtime (script : list (Error + Response)) : Runtime :=
  let P := Reference.platform (Reference.scripted script) in
  mkRuntime "baseSepolia" Reference.baseSepolia address 1000000
    (@wrapFetchWithPayment P (mkWallet address Reference.baseSepolia) 1000000).

Definition get_args : Args := mkArgs "https://example.org/resource" None None None.

Definition post_args : Args :=
  mkArgs "https://example.org/resource" (Some "POST") None (Some "q=1").

(** A free resource. *)
Definition free : Response :=
  mkResponse 200 "OK" [("content-type", "text/plain")] (inr "hello").

(** A response whose settlement header is not base64. *)
Definition garbled : Response :=
  mkResponse 200 "OK" [("content-type", "text/plain"); ("x-payment-response", "!!!")]
    (inr "hello").

(** A response whose settlement header encodes
    [{"amount":500000,"network":"mainnet","txHash":"0xabc","settled":true}]. *)
Definition settled_header : string :=
  "eyJhbW91bnQiOjUwMDAwMCwibmV0d29yayI6Im1haW5uZXQiLCJ0eEhhc2giOiIweGFiYyIsInNldHRsZWQiOnRydWV9".

Definition paid : Response :=
  mkResponse 200 "OK" [("content-type", "text/plain"); ("x-payment-response", settled_header)]
    (inr "hello").

(** A response whose settlement header encodes [{"amount":1e27}]. *)
Definition huge : Response :=
  mkResponse 200 "OK" [("content-type", "text/plain"); ("payment-response", "eyJhbW91bnQiOjFlMjd9")]
    (inr "hello").

(** A challenge for 500000 units on base-sepolia. *)
Definition challenge : Response :=
  mkResponse 402 "Payment Required" [("content-type", "application/json")]
    (inr (String.concat (String Reference.quote EmptyString)
            ["{"; "amount"; ":500000,"; "network"; ":"; "base-sepolia"; ","; "payTo"; ":";
             "0xfeed"; ","; "nonce"; ":"; "n-1"; "}"])).

End Sample.

(** ** The tool catalogue *)

Module Catalog.

Import JS Eff Http Env Index.

(** One entry of [properties] in an input schema (lines 60-79). *)
Record Property : Type := mkProperty {
  property_name : string;
  property_type : string;
  property_description : string;
  property_default : option string;
  property_additional : option string
}.

(** One entry of [tools] (lines 54-90): its name, its description and its
    input schema, whose [required] list may be absent. *)
Record Tool : Type := mkTool {
  tool_name : string;
  tool_description : string;
  schema_type : string;
  schema_properties : list Property;
  schema_required : option (list string)
}.

(** Lines 53-91: the tools the server announces. *)
Definition tools : list Tool :=
  [ mkTool "x402_fetch"
      "Fetch content from a URL with automatic x402 payment handling. Supports HTTP 402 Payment Required responses and automatically processes USDC payments on Base network."
      "object"
      [ mkProperty "url" "string" "The URL to fetch" None None;
        mkProperty "method" "string" "HTTP method (GET, POST, etc.)" (Some "GET") None;
        mkProperty "headers" "object" "Optional HTTP headers" None (Some "string");
        mkProperty "body" "string" "Optional request body for POST/PUT requests" None None ]
      (Some ["url"]);
    mkTool "x402_wallet_info"
      "Get information about the configured x402 payment wallet"
      "object" [] None ].

(** Lines 51-93: the handler of [ListToolsRequestSchema]. *)
Definition list_tools : M (list Tool) := ret tools.

(** The default a tool's schema declares for one of its properties. *)
Definition default_of (t : Tool) (name : string) : option string :=
  match find (fun p => String.eqb (property_name p) name) (schema_properties t) with
  | Some p => property_default p
  | None => None
  end.

(** The answer of line 207-215 for a name the handler does not know. *)
Definition unknown_tool (name : string) : CallToolResult :=
  {| text := Plain ("Unknown tool: " ++ name); isError := true |}.

(** The answer of lines 193-204. *)
Definition wallet_info (address network chain : string) : CallToolResult :=
  {| text := WalletJson address network chain; isError := false |}.

End Catalog.

(** ** Further sample runs *)

Module Cases.

Import JS Eff Http Env Index.

Definition with_key (key : string) (extra : Environment) : Environment :=
  fun name => if String.eqb name "PRIVATE_KEY" then Some key else extra name.

Definition nothing : Environment := fun _ => None.

(** MAX_PAYMENT_USDC set to a text that is no integer. *)
Definition bad_ceiling : Environment :=
  with_key Sample.key
    (fun name => if String.eqb name "MAX_PAYMENT_USDC" then Some "1 USDC" else None).

(** NETWORK set to a name that is neither of the two supported ones. *)
Definition mainnet : Environment :=
  with_key Sample.key (fun name => if String.eqb name "NETWORK" then Some "mainnet" else None).

(** The reference platform with a transport that fails to connect. *)
Definition offline : Platform :=
  let P := Reference.platform (Reference.scripted []) in {|
    Env.atob := @Env.atob P;
    Env.JSON_parse := @Env.JSON_parse P;
    Env.JSON_stringify := @Env.JSON_stringify P;
    Env.ToString := @Env.ToString P;
    Env.StringToNumber := @Env.StringToNumber P;
    Env.BigInt := @Env.BigInt P;
    Env.privateKeyToAccount := @Env.privateKeyToAccount P;
    Env.base := @Env.base P;
    Env.baseSepolia := @Env.baseSepolia P;
    Env.wrapFetchWithPayment := @Env.wrapFetchWithPayment P;
    Env.connect := inl (mkError "EPIPE");
    Env.inspect := @Env.inspect P
  |}.

Definition with_settlement (header : string) : Response :=
  mkResponse 200 "OK" [("content-type", "text/plain"); ("x-payment-response", header)]
    (inr "hello").

(** Settlement headers encoding [null], [{"amount":0}], [5],
    [{"amount":"500000"}] and [{"amount":"abc"}]. *)
Definition null_receipt : Response := with_settlement "bnVsbA==".
Definition zero_amount : Response := with_settlement "eyJhbW91bnQiOjB9".
Definition number_receipt : Response := with_settlement "NQ==".
Definition string_amount : Response := with_settlement "eyJhbW91bnQiOiI1MDAwMDAifQ==".
Definition word_amount : Response := with_settlement "eyJhbW91bnQiOiJhYmMifQ==".

(** A settlement header that is present and empty, under either name. *)
Definition empty_header : Response := with_settlement "".
Definition empty_fallback : Response :=
  mkResponse 200 "OK" [("content-type", "text/plain"); ("payment-response", "")]
    (inr "hello").

(** Settlement headers encoding [{"amount":{"toString":1}}] and
    [{"amount":500000,"txHash":{"toString":1}}]. *)
Definition object_amount : Response := with_settlement "eyJhbW91bnQiOnsidG9TdHJpbmciOjF9fQ==".
Definition object_txHash : Response :=
  with_settlement "eyJhbW91bnQiOjUwMDAwMCwidHhIYXNoIjp7InRvU3RyaW5nIjoxfX0=".

(** A paid response that announces JSON and carries something else. *)
Definition broken_json : Response :=
  mkResponse 200 "OK"
    [("content-type", "application/json; charset=utf-8");
     ("x-payment-response", Sample.settled_header)]
    (inr "<html>").

(** A response whose body stream breaks. *)
Definition broken_stream : Response :=
  mkResponse 200 "OK" [("content-type", "text/plain")] (inl (mkError "terminated")).

(** A server error with a readable body. *)
Definition server_error : Response :=
  mkResponse 500 "Internal Server Error" [("content-type", "text/plain")] (inr "oops").

End Cases.

(** * Properties *)

Import JS Eff Http Env Index NumberFormat Observe.

Local Open Scope eff_scope.

(** ** The monad *)

Lemma outcome_bind_throw {A B} (m : M A) (k : A -> M B) (e : Error) :
  outcome m = inl e -> outcome (Eff.bind m k) = inl e.
Proof.
  destruct m as [w [e' | a]]; cbn; intros E; [congruence | discriminate].
Qed.

Lemma outcome_bind_return {A B} (m : M A) (k : A -> M B) (a : A) :
  outcome m = inr a -> outcome (Eff.bind m k) = outcome (k a).
Proof.
  destruct m as [w [e' | a']]; cbn; intros E; [discriminate|].
  injection E as ->. destruct (k a); reflexivity.
Qed.

Lemma trace_bind_throw {A B} (m : M A) (k : A -> M B) (e : Error) :
  outcome m = inl e -> trace (Eff.bind m k) = trace m.
Proof.
  destruct m as [w [e' | a]]; cbn; intros E; [reflexivity | discriminate].
Qed.

Lemma trace_bind_return {A B} (m : M A) (k : A -> M B) (a : A) :
  outcome m = inr a -> trace (Eff.bind m k) = (trace m ++ trace (k a))%list.
Proof.
  destruct m as [w [e' | a']]; cbn; intros E; [discriminate|].
  injection E as ->. destruct (k a); reflexivity.
Qed.

Lemma outcome_try_catch_return {A} (m : M A) (h : Error -> M A) (a : A) :
  outcome m = inr a -> outcome (try_catch m h) = inr a.
Proof.
  destruct m as [w [e | a']]; cbn; intros E; [discriminate | assumption].
Qed.

Lemma outcome_try_catch_throw {A} (m : M A) (h : Error -> M A) (e : Error) :
  outcome m = inl e -> outcome (try_catch m h) = outcome (h e).
Proof.
  destruct m as [w [e' | a']]; cbn; intros E; [|discriminate].
  injection E as ->. destruct (h e); reflexivity.
Qed.

Lemma trace_try_catch_return {A} (m : M A) (h : Error -> M A) (a : A) :
  outcome m = inr a -> trace (try_catch m h) = trace m.
Proof.
  destruct m as [w [e | a']]; cbn; intros E; [discriminate | reflexivity].
Qed.

Lemma trace_try_catch_throw {A} (m : M A) (h : Error -> M A) (e : Error) :
  outcome m = inl e -> trace (try_catch m h) = (trace m ++ trace (h e))%list.
Proof.
  destruct m as [w [e' | a']]; cbn; intros E; [|discriminate].
  injection E as ->. destruct (h e); reflexivity.
Qed.

Lemma issued_app (u v : list effect) : issued (u ++ v) = (issued u ++ issued v)%list.
Proof.
  induction u as [|[line | url init] u IH]; simpl; [reflexivity | assumption |].
  now rewrite IH.
Qed.

Lemma logged_app (u v : list effect) : logged (u ++ v) = (logged u ++ logged v)%list.
Proof.
  induction u as [|[line | url init] u IH]; simpl; [reflexivity | | assumption].
  now rewrite IH.
Qed.

(** ** Startup *)

(** C5.  When the environment has no PRIVATE_KEY, the top level of the
    module writes the diagnostic line and the process exits with code 1:
    nothing else is written and the process never reaches [Serving]. *)
Theorem startup_without_key_exits_1 `{Platform} (env : Environment) :
  env "PRIVATE_KEY" = None ->
  startup env = ([ConsoleError "PRIVATE_KEY environment variable is required"], Exited 1).
Proof.
  intros Hkey. unfold startup. now rewrite Hkey.
Qed.

Lemma startup_without_key_exits_1_witness :
  @startup (Reference.platform (Reference.scripted [])) (fun _ => None)
  = ([ConsoleError "PRIVATE_KEY environment variable is required"], Exited 1).
Proof.
  apply (@startup_without_key_exits_1 (Reference.platform (Reference.scripted []))
           (fun _ => None)).
  reflexivity.
Defined.

(** The process serves tools only with a key that is present and not empty. *)
Lemma serving_needs_key `{Platform} (env : Environment) w rt :
  startup env = (w, Serving rt) ->
  exists key, env "PRIVATE_KEY" = Some key /\ nonempty key = true.
Proof.
  unfold startup. destruct (env "PRIVATE_KEY") as [key|]; [|discriminate].
  cbn [truthy_opt]. destruct (nonempty key) eqn:Hk; [|discriminate].
  intros _. now exists key.
Qed.

(** ** The settlement header *)

(** The lookup of lines 130-132 in one equation. *)
Lemma actualPaymentResponse_eq (response : Response) :
  actualPaymentResponse response =
  match get (headers response) primary with
  | Some v => if nonempty v then Some v else get (headers response) fallback
  | None => get (headers response) fallback
  end.
Proof.
  unfold actualPaymentResponse, or_opt, truthy_opt, primary, fallback.
  destruct (get (headers response) "x-payment-response") as [v|]; [|reflexivity].
  destruct (nonempty v); reflexivity.
Qed.

(** C1, as the code has it.  The primary name is looked up first and its
    value is the result whenever it is a non-empty string; the value under
    the fallback name is the result exactly when the primary header is absent
    or empty; the result is always the value under one of the two names,
    never a combination. *)
Theorem settlement_lookup_order (response : Response) :
  let p := get (headers response) primary in
  let f := get (headers response) fallback in
  actualPaymentResponse response = (if truthy_opt p then p else f) /\
  (actualPaymentResponse response = p \/ actualPaymentResponse response = f) /\
  (actualPaymentResponse response <> p -> p = None \/ p = Some "").
Proof.
  cbv zeta. rewrite actualPaymentResponse_eq.
  destruct (get (headers response) primary) as [[|c v]|]; simpl.
  - split; [reflexivity|]. split; [now right|]. intros _. now right.
  - split; [reflexivity|]. split; [now left|]. intros N. now contradiction N.
  - split; [reflexivity|]. split; [now right|]. intros _. now left.
Qed.

Lemma settlement_lookup_order_witness :
  let response := mkResponse 200 "OK" [("payment-response", "e30=")] (inr "") in
  actualPaymentResponse response = Some "e30=" /\
  get (headers response) primary = None.
Proof.
  cbv zeta.
  pose proof (settlement_lookup_order
                (mkResponse 200 "OK" [("payment-response", "e30=")] (inr ""))) as [E [_ N]].
  split; [exact E|].
  destruct N as [N | N]; [discriminate | exact N | discriminate N].
Defined.

(** C1, as stated, fails: with an empty primary header the value of the
    fallback is used although the primary header is present. *)
Lemma fallback_used_with_primary_present :
  let response :=
    mkResponse 200 "OK" [("x-payment-response", ""); ("payment-response", "e30=")] (inr "") in
  get (headers response) primary = Some "" /\
  get (headers response) fallback = Some "e30=" /\
  actualPaymentResponse response = Some "e30=" /\
  ~ (actualPaymentResponse response <> get (headers response) primary ->
     get (headers response) primary = None).
Proof.
  cbv zeta. repeat split; try reflexivity.
  intros N. assert (D : Some "" = @None string) by (apply N; discriminate).
  discriminate D.
Qed.

(** ** The handler, step by step *)

Lemma run_eq {A} (m : M A) : m = (trace m, outcome m).
Proof. now destruct m. Qed.

Lemma read_content_pure `{Platform} (response : Response) (ct : string) :
  trace (read_content response ct) = [].
Proof.
  unfold read_content. destruct (includes "application/json" ct); [|reflexivity].
  destruct (body response) as [e | t]; [reflexivity|]. cbn.
  destruct (JSON_parse t); reflexivity.
Qed.

Lemma read_content_run `{Platform} (response : Response) (ct : string) r :
  outcome (read_content response ct) = r -> read_content response ct = ([], r).
Proof.
  intros <-. rewrite (run_eq (read_content response ct)) at 1.
  now rewrite read_content_pure.
Qed.


Lemma get_prop_defined (decoded : value) (k : string) :
  nullish decoded = false -> get_prop decoded k = ret (prop decoded k).
Proof. destruct decoded; cbn; try discriminate; reflexivity. Qed.

Lemma get_prop_nullish (decoded : value) (k : string) :
  nullish decoded = true -> exists e, get_prop decoded k = throw e.
Proof. destruct decoded; cbn; try discriminate; eauto. Qed.

(** Line 138 writes nothing. *)
Lemma amountUsdc_run `{Platform} (v : value) :
  amountUsdc v = ([], outcome (amountUsdc v)).
Proof.
  unfold amountUsdc. destruct (truthy v); [|reflexivity].
  cbn. destruct (Number v); reflexivity.
Qed.

Lemma amountUsdc_falsy `{Platform} (v : value) :
  truthy v = false -> outcome (amountUsdc v) = inr None.
Proof. intros T. unfold amountUsdc. now rewrite T. Qed.

Lemma amountUsdc_converted `{Platform} (v : value) (x : spec_float) :
  truthy v = true -> Number v = inr x ->
  outcome (amountUsdc v) = inr (Some (toFixed6 (div x (of_Z 1000000)))).
Proof. intros T N. unfold amountUsdc. rewrite T. cbn. now rewrite N. Qed.

Lemma amountUsdc_throws `{Platform} (v : value) e :
  truthy v = true -> Number v = inl e -> outcome (amountUsdc v) = inl e.
Proof. intros T N. unfold amountUsdc. rewrite T. cbn. now rewrite N. Qed.

(** The inner [try] throws when [atob] throws. *)
Lemma decode_payment_atob_throws `{Platform} (rt : Runtime) (header : string) e :
  atob header = inl e -> decode_payment rt header = ([], inl e).
Proof. intros E. unfold decode_payment. now rewrite E. Qed.

(** The inner [try] throws when [JSON.parse] throws. *)
Lemma decode_payment_parse_throws `{Platform} (rt : Runtime) (header raw : string) e :
  atob header = inr raw -> JSON_parse raw = inl e ->
  decode_payment rt header = ([], inl e).
Proof. intros E1 E2. unfold decode_payment. rewrite E1. cbn. now rewrite E2. Qed.

(** The inner [try] throws when the parsed value is [null]. *)
Lemma decode_payment_null_throws `{Platform} (rt : Runtime) (header raw : string) decoded :
  atob header = inr raw -> JSON_parse raw = inr decoded -> nullish decoded = true ->
  exists e, decode_payment rt header = ([], inl e).
Proof.
  intros E1 E2 N. unfold decode_payment. rewrite E1. cbn. rewrite E2. cbn.
  destruct (get_prop_nullish decoded "amount" N) as [e ->]. now exists e.
Qed.

(** The inner [try] throws when [Number] throws on the amount. *)
Lemma decode_payment_amount_throws `{Platform} (rt : Runtime) (header raw : string)
  decoded e :
  atob header = inr raw -> JSON_parse raw = inr decoded -> nullish decoded = false ->
  outcome (amountUsdc (prop decoded "amount")) = inl e ->
  decode_payment rt header = ([], inl e).
Proof.
  intros E1 E2 N U. unfold decode_payment. rewrite E1. cbn. rewrite E2. cbn.
  rewrite (get_prop_defined decoded _ N). cbn.
  rewrite (amountUsdc_run (prop decoded "amount")), U. reflexivity.
Qed.

(** [toFixed] never returns the empty string, so [amountUsdc] is truthy
    whenever it is not [null]. *)
Lemma digits_aux_length (fuel : nat) (n : Z) (acc : list ascii) :
  (List.length acc <= List.length (digits_aux fuel n acc))%nat.
Proof.
  revert n acc. induction fuel as [|fuel IH]; intros n acc; simpl; [lia|].
  destruct (n / 10 =? 0)%Z; [simpl; lia|].
  specialize (IH (n / 10)%Z (digit_char (n mod 10) :: acc)). simpl in IH. lia.
Qed.

Lemma digits_nonempty (n : Z) : (1 <= List.length (digits n))%nat.
Proof.
  unfold digits. simpl. destruct (n / 10 =? 0)%Z; [simpl; lia|].
  pose proof (digits_aux_length (Z.to_nat (Z.log2 n)) (n / 10)
                [digit_char (n mod 10)]) as L.
  simpl in L. lia.
Qed.

Lemma nonempty_of_list (l : list ascii) :
  (1 <= List.length l)%nat -> nonempty (string_of_list_ascii l) = true.
Proof. destruct l; simpl; [lia | reflexivity]. Qed.

Lemma nonempty_append_l (s t : string) : nonempty t = true -> nonempty (s ++ t) = true.
Proof. destruct s; simpl; [exact (fun E => E) | reflexivity]. Qed.

Lemma point_at_length (f : nat) (m : list ascii) :
  (1 <= List.length (point_at f m))%nat.
Proof. unfold point_at. rewrite length_app. simpl. lia. Qed.

Lemma toString_finite_length (m : positive) (e : Z) :
  (1 <= List.length (toString_finite m e))%nat.
Proof.
  unfold toString_finite.
  destruct (match e with Zneg p => _ | _ => _ end) as [num den].
  destruct (shortest _ _ _ _ _ _) as [s n].
  pose proof (digits_nonempty s) as D.
  repeat match goal with |- context [if ?b then _ else _] => destruct b end;
    try (rewrite !length_app; simpl; lia); try (simpl; lia).
  all: destruct (digits s) as [|d [|d' ds]]; simpl; lia.
Qed.

Lemma toFixed6_nonempty (x : spec_float) : nonempty (toFixed6 x) = true.
Proof.
  destruct x as [s | [|] | | s m e]; try reflexivity.
  unfold toFixed6. destruct (at_least_1e21 m e).
  - apply nonempty_append_l. unfold toString. apply nonempty_append_l.
    apply nonempty_of_list, toString_finite_length.
  - apply nonempty_append_l, nonempty_of_list, point_at_length.
Qed.

(** The object assigned to [paymentInfo] for a header that decodes to
    [decoded], once line 138 has given [usdc]. *)
Lemma decode_payment_returns `{Platform} (rt : Runtime) (header raw : string) decoded
  (usdc : option string) :
  atob header = inr raw -> JSON_parse raw = inr decoded -> nullish decoded = false ->
  outcome (amountUsdc (prop decoded "amount")) = inr usdc ->
  decode_payment rt header =
  ([], inr {|
     txHash := or (prop decoded "txHash") Null;
     amount := match usdc with
               | Some s => if nonempty s then Some (s ++ " USDC") else None
               | None => None
               end;
     amountRaw := or (prop decoded "amount") Null;
     network := chain_name (chain rt);
     settled := or (prop decoded "settled") (Bool false) |}).
Proof.
  intros E1 E2 N U. unfold decode_payment. rewrite E1. cbn. rewrite E2. cbn.
  rewrite !(get_prop_defined decoded _ N). cbn.
  rewrite (amountUsdc_run (prop decoded "amount")), U. reflexivity.
Qed.

(** Lines 137-145 write nothing. *)
Lemma decode_payment_pure `{Platform} (rt : Runtime) (header : string) :
  trace (decode_payment rt header) = [].
Proof.
  destruct (atob header) as [e | raw] eqn:E1.
  { now rewrite (decode_payment_atob_throws rt header e E1). }
  destruct (JSON_parse raw) as [e | decoded] eqn:E2.
  { now rewrite (decode_payment_parse_throws rt header raw e E1 E2). }
  destruct (nullish decoded) eqn:N.
  { destruct (decode_payment_null_throws rt header raw decoded E1 E2 N) as [e ->].
    reflexivity. }
  destruct (outcome (amountUsdc (prop decoded "amount"))) as [e | usdc] eqn:U.
  - now rewrite (decode_payment_amount_throws rt header raw decoded e E1 E2 N U).
  - now rewrite (decode_payment_returns rt header raw decoded usdc E1 E2 N U).
Qed.

(** Whatever is assigned to [paymentInfo] has the configured network. *)
Lemma decode_payment_network `{Platform} (rt : Runtime) (header : string) w info :
  decode_payment rt header = (w, inr info) -> network info = chain_name (chain rt).
Proof.
  destruct (atob header) as [e | raw] eqn:E1.
  { rewrite (decode_payment_atob_throws rt header e E1). discriminate. }
  destruct (JSON_parse raw) as [e | decoded] eqn:E2.
  { rewrite (decode_payment_parse_throws rt header raw e E1 E2). discriminate. }
  destruct (nullish decoded) eqn:N.
  { destruct (decode_payment_null_throws rt header raw decoded E1 E2 N) as [e ->].
    discriminate. }
  destruct (outcome (amountUsdc (prop decoded "amount"))) as [e | usdc] eqn:U.
  - rewrite (decode_payment_amount_throws rt header raw decoded e E1 E2 N U).
    discriminate.
  - rewrite (decode_payment_returns rt header raw decoded usdc E1 E2 N U).
    intros R. injection R as _ <-. reflexivity.
Qed.

(** Lines 146-150 hand nothing to [x402Fetch]. *)
Lemma announce_payment_issues_nothing `{Platform} (info : PaymentInfo) :
  issued (trace (announce_payment info)) = [].
Proof.
  unfold announce_payment. cbn.
  destruct (ToString (or (txHash info) (Str "N/A"))) as [e | t]; [reflexivity|]. cbn.
  destruct (ToString (settled info)) as [e | t']; reflexivity.
Qed.

(** Lines 134-156 never throw. *)
Lemma payment_info_absent `{Platform} (rt : Runtime) (actual : option string) :
  truthy_opt actual = false ->
  payment_info rt actual =
  ([ConsoleError "[x402-fetch] ℹ️ No payment was required or made"], inr None).
Proof. intros E. unfold payment_info. now rewrite E. Qed.

Lemma payment_info_caught `{Platform} (rt : Runtime) (header : string) w e :
  nonempty header = true -> decode_payment rt header = (w, inl e) ->
  payment_info rt (Some header) = ((w ++ [ConsoleError (raw_line header)])%list, inr None).
Proof.
  intros N E. unfold payment_info. cbn [truthy_opt the_string]. rewrite N, E.
  reflexivity.
Qed.

(** Once [paymentInfo] is assigned it is the payment of the outcome, whether
    or not the lines that announce it throw. *)
Lemma payment_info_decoded `{Platform} (rt : Runtime) (header : string) w info :
  nonempty header = true -> decode_payment rt header = (w, inr info) ->
  exists w',
    payment_info rt (Some header) = ((w ++ w')%list, inr (Some info)) /\
    issued w' = [].
Proof.
  intros N E. unfold payment_info. cbn [truthy_opt the_string]. rewrite N, E.
  pose proof (announce_payment_issues_nothing info) as I.
  unfold bind at 1. unfold try_catch at 1. unfold bind at 1.
  destruct (announce_payment info) as [wa [e | u]]; cbn in I |- *.
  - eexists. split; [reflexivity|]. rewrite issued_app, I. reflexivity.
  - eexists. split; [reflexivity|]. rewrite app_nil_r. exact I.
Qed.

Lemma payment_info_returns `{Platform} (rt : Runtime) (actual : option string) :
  exists w p, payment_info rt actual = (w, inr p).
Proof.
  destruct (truthy_opt actual) eqn:T.
  - destruct actual as [header|]; [|discriminate]. cbn in T.
    destruct (decode_payment rt header) as [w [e | info]] eqn:D.
    + rewrite (payment_info_caught rt header w e T D). eauto.
    + destruct (payment_info_decoded rt header w info T D) as [w' [-> _]]. eauto.
  - rewrite (payment_info_absent rt actual T). eauto.
Qed.

(** A payment the outcome carries has the configured network. *)
Lemma payment_info_network `{Platform} (rt : Runtime) (actual : option string) w p :
  payment_info rt actual = (w, inr (Some p)) -> network p = chain_name (chain rt).
Proof.
  destruct (truthy_opt actual) eqn:T.
  - destruct actual as [header|]; [|discriminate]. cbn in T.
    destruct (decode_payment rt header) as [w0 [e | info]] eqn:D.
    + rewrite (payment_info_caught rt header w0 e T D). discriminate.
    + destruct (payment_info_decoded rt header w0 info T D) as [w' [-> _]].
      intros R. injection R as _ <-. exact (decode_payment_network rt header w0 info D).
  - rewrite (payment_info_absent rt actual T). discriminate.
Qed.

(** The body of the outer [try], from the answer of [x402Fetch] on. *)
Lemma fetch_body_fetch_throws `{Platform} (rt : Runtime) url method hs body e :
  x402Fetch rt url (fetchOptions method hs body) = inl e ->
  outcome (fetch_body rt url method hs body) = inl e /\
  issued (trace (fetch_body rt url method hs body)) = [(url, fetchOptions method hs body)].
Proof. intros E. unfold fetch_body. cbn. rewrite E. cbn. now split. Qed.

Lemma fetch_body_content_throws `{Platform} (rt : Runtime) url method hs body response e :
  x402Fetch rt url (fetchOptions method hs body) = inr response ->
  outcome (read_content response (contentType response)) = inl e ->
  outcome (fetch_body rt url method hs body) = inl e /\
  issued (trace (fetch_body rt url method hs body)) = [(url, fetchOptions method hs body)].
Proof.
  intros E C. unfold fetch_body. cbn. rewrite E. cbn.
  fold (contentType response). rewrite (read_content_run _ _ _ C). cbn. now split.
Qed.

Lemma fetch_body_returns `{Platform} (rt : Runtime) url method hs body response content w p :
  x402Fetch rt url (fetchOptions method hs body) = inr response ->
  outcome (read_content response (contentType response)) = inr content ->
  payment_info rt (actualPaymentResponse response) = (w, inr p) ->
  outcome (fetch_body rt url method hs body)
  = inr (success response (truthy_opt (actualPaymentResponse response)) p content) /\
  issued (trace (fetch_body rt url method hs body))
  = ((url, fetchOptions method hs body) :: issued w) /\
  (forall line, In (ConsoleError line) w ->
                In (ConsoleError line) (trace (fetch_body rt url method hs body))).
Proof.
  intros E C I. unfold fetch_body. cbn. rewrite E. cbn.
  fold (contentType response). rewrite (read_content_run _ _ _ C). cbn.
  rewrite I. cbn. split; [reflexivity|]. split.
  - rewrite issued_app. cbn. now rewrite app_nil_r.
  - intros line L. repeat right. apply in_or_app. now left.
Qed.

Lemma payment_info_issues_nothing `{Platform} (rt : Runtime) (actual : option string) :
  issued (trace (payment_info rt actual)) = [].
Proof.
  destruct (truthy_opt actual) eqn:T.
  - destruct actual as [header|]; [|discriminate]. cbn in T.
    pose proof (decode_payment_pure rt header) as I.
    destruct (decode_payment rt header) as [w [e | info]] eqn:D; cbn in I; subst w.
    + now rewrite (payment_info_caught rt header [] e T D).
    + destruct (payment_info_decoded rt header [] info T D) as [w' [-> I]]. exact I.
  - now rewrite (payment_info_absent rt actual T).
Qed.

Lemma x402_fetch_eq `{Platform} (rt : Runtime) (a : Args) :
  x402_fetch rt (Some a) =
  try_catch (fetch_body rt (arg_url a) (method_of a) (headers_of a) (arg_body a))
    (fun error => ret (failure error)).
Proof. reflexivity. Qed.

(** Exactly one request is handed to [x402Fetch] per invocation, the one of
    lines 103-110, whatever happens afterwards. *)
Lemma x402_fetch_issues_one `{Platform} (rt : Runtime) (a : Args) :
  issued (trace (x402_fetch rt (Some a))) = [(arg_url a, request_of a)].
Proof.
  rewrite x402_fetch_eq.
  set (run := fetch_body rt (arg_url a) (method_of a) (headers_of a) (arg_body a)).
  assert (I : issued (trace run) = [(arg_url a, request_of a)]).
  { unfold run.
    destruct (x402Fetch rt (arg_url a) (request_of a)) as [e | response] eqn:E.
    { exact (proj2 (fetch_body_fetch_throws rt _ _ _ _ e E)). }
    destruct (outcome (read_content response (contentType response)))
      as [e | content] eqn:C.
    { exact (proj2 (fetch_body_content_throws rt _ _ _ _ response e E C)). }
    destruct (payment_info_returns rt (actualPaymentResponse response)) as [w [p I]].
    destruct (fetch_body_returns _ _ _ _ _ _ _ _ _ E C I) as [_ [-> _]].
    pose proof (payment_info_issues_nothing rt (actualPaymentResponse response)) as N.
    rewrite I in N. cbn in N. now rewrite N. }
  destruct (outcome run) as [e | r] eqn:O.
  - rewrite (trace_try_catch_throw _ _ e O), issued_app, I. reflexivity.
  - now rewrite (trace_try_catch_return _ _ r O).
Qed.

(** ** The facade *)

(** C3.  An invocation of x402_fetch that carries arguments always returns a
    result.  When [x402Fetch] rejects with an error, and when reading the
    content of the response (the body stream, or [JSON.parse] of a JSON body)
    throws one, the result is [{success: false, error: message}] flagged
    [isError]; otherwise it is a success outcome.  Nothing thrown inside the
    [try] leaves the handler.  An invocation without arguments throws at the
    destructuring before the [try], having written and fetched nothing, and
    that exception leaves the handler. *)
Theorem exceptions_become_failures `{Platform} (rt : Runtime) (args : option Args) :
  match args with
  | None => exists e, x402_fetch rt None = ([], inl e)
  | Some a =>
      match x402Fetch rt (arg_url a) (request_of a) with
      | inl e => outcome (x402_fetch rt (Some a)) = inr (failure e)
      | inr response =>
          match outcome (read_content response (contentType response)) with
          | inl e => outcome (x402_fetch rt (Some a)) = inr (failure e)
          | inr content =>
              exists payment,
                outcome (x402_fetch rt (Some a))
                = inr (success response (truthy_opt (actualPaymentResponse response))
                         payment content)
          end
      end
  end.
Proof.
  destruct args as [a|]; [|eexists; reflexivity].
  rewrite x402_fetch_eq.
  destruct (x402Fetch rt (arg_url a) (request_of a)) as [e | response] eqn:E.
  { destruct (fetch_body_fetch_throws rt _ _ _ _ e E) as [O _].
    now rewrite (outcome_try_catch_throw _ _ e O). }
  destruct (outcome (read_content response (contentType response)))
    as [e | content] eqn:C.
  { destruct (fetch_body_content_throws rt _ _ _ _ response e E C) as [O _].
    now rewrite (outcome_try_catch_throw _ _ e O). }
  destruct (payment_info_returns rt (actualPaymentResponse response)) as [w [p I]].
  destruct (fetch_body_returns rt _ _ _ _ _ _ _ _ E C I) as [O _].
  exists p. now rewrite (outcome_try_catch_return _ _ _ O).
Qed.

(** C3, as stated, fails: a call of x402_fetch that carries no arguments
    throws out of the handler instead of returning a failure outcome. *)
Lemma call_without_arguments_throws :
  let P := Reference.platform (Reference.scripted [inr Sample.free]) in
  let run := @call_tool P (Sample.runtime [inr Sample.free])
               (mkRequest "x402_fetch" None) in
  (forall result, outcome run <> inr result) /\
  outcome run
  = inl (mkError "Cannot destructure property 'url' of 'args' as it is undefined.").
Proof.
  cbv zeta. split; [intros result; discriminate | reflexivity].
Qed.

(** The one exception that leaves the handler is thrown before the [try],
    by the destructuring on line 100 when the request has no arguments. *)
Lemma x402_fetch_throws_only_without_arguments `{Platform} (rt : Runtime)
  (args : option Args) e :
  outcome (x402_fetch rt args) = inl e -> args = None.
Proof.
  destruct args as [a|]; [|reflexivity]. rewrite x402_fetch_eq.
  destruct (outcome (fetch_body rt (arg_url a) (method_of a) (headers_of a) (arg_body a)))
    as [e' | r] eqn:O.
  - rewrite (outcome_try_catch_throw _ _ e' O). discriminate.
  - rewrite (outcome_try_catch_return _ _ r O). discriminate.
Qed.

(** The success path of an invocation. *)
Lemma x402_fetch_returns `{Platform} (rt : Runtime) (a : Args) response content w p :
  x402Fetch rt (arg_url a) (request_of a) = inr response ->
  outcome (read_content response (contentType response)) = inr content ->
  payment_info rt (actualPaymentResponse response) = (w, inr p) ->
  outcome (x402_fetch rt (Some a))
  = inr (success response (truthy_opt (actualPaymentResponse response)) p content) /\
  (forall line, In (ConsoleError line) w ->
                In (ConsoleError line) (trace (x402_fetch rt (Some a)))).
Proof.
  intros E C I. rewrite x402_fetch_eq.
  destruct (fetch_body_returns rt _ _ _ _ _ _ _ _ E C I) as [O [_ L]].
  split.
  - now rewrite (outcome_try_catch_return _ _ _ O).
  - intros line Hin. rewrite (trace_try_catch_return _ _ _ O). now apply L.
Qed.

Lemma decode_fails_throws `{Platform} (rt : Runtime) (header : string) :
  decode_fails header -> exists e, decode_payment rt header = ([], inl e).
Proof.
  intros [[e E] | [raw [e [E1 E2]]]]; exists e.
  - now apply decode_payment_atob_throws.
  - now apply (decode_payment_parse_throws rt header raw).
Qed.

(** The outcome for a settlement header that decodes to a value other than
    [null], once line 138 has given [usdc]. *)
Lemma x402_fetch_decoded `{Platform} (rt : Runtime) (a : Args) (response : Response)
  (content header raw : string) (decoded : value) (usdc : option string) :
  x402Fetch rt (arg_url a) (request_of a) = inr response ->
  outcome (read_content response (contentType response)) = inr content ->
  actualPaymentResponse response = Some header ->
  nonempty header = true ->
  atob header = inr raw ->
  JSON_parse raw = inr decoded ->
  nullish decoded = false ->
  outcome (amountUsdc (prop decoded "amount")) = inr usdc ->
  outcome (x402_fetch rt (Some a))
  = inr (success response true
           (Some {|
              txHash := or (prop decoded "txHash") Null;
              amount := match usdc with
                        | Some s => if nonempty s then Some (s ++ " USDC") else None
                        | None => None
                        end;
              amountRaw := or (prop decoded "amount") Null;
              network := chain_name (chain rt);
              settled := or (prop decoded "settled") (Bool false) |})
           content).
Proof.
  intros E C A N E1 E2 D U.
  pose proof (decode_payment_returns rt header raw decoded usdc E1 E2 D U) as R.
  destruct (payment_info_decoded rt header [] _ N R) as [w' [I _]].
  rewrite <- A in I.
  destruct (x402_fetch_returns rt a response content _ _ E C I) as [O _].
  rewrite O, A. cbn [truthy_opt]. now rewrite N.
Qed.

(** The outcome for a settlement header on which lines 137-145 throw. *)
Lemma x402_fetch_undecoded `{Platform} (rt : Runtime) (a : Args) (response : Response)
  (content header : string) e :
  x402Fetch rt (arg_url a) (request_of a) = inr response ->
  outcome (read_content response (contentType response)) = inr content ->
  actualPaymentResponse response = Some header ->
  nonempty header = true ->
  decode_payment rt header = ([], inl e) ->
  In (ConsoleError (raw_line header)) (trace (x402_fetch rt (Some a))) /\
  outcome (x402_fetch rt (Some a)) = inr (success response true None content).
Proof.
  intros E C A N D.
  pose proof (payment_info_caught rt header [] e N D) as I.
  rewrite <- A in I.
  destruct (x402_fetch_returns rt a response content _ _ E C I) as [O L].
  split.
  - apply L. now left.
  - rewrite O, A. cbn [truthy_opt]. now rewrite N.
Qed.

(** C2.  When the final response carries a settlement header, a non-empty
    value under one of the two names, that cannot be parsed (atob or
    JSON.parse throws on it), the handler writes the raw header to the
    console and still returns the success outcome with the status and the
    content of the response. *)
Theorem malformed_settlement_is_logged_not_fatal `{Platform} (rt : Runtime) (a : Args)
  (response : Response) (content header : string) :
  x402Fetch rt (arg_url a) (request_of a) = inr response ->
  outcome (read_content response (contentType response)) = inr content ->
  actualPaymentResponse response = Some header ->
  nonempty header = true ->
  decode_fails header ->
  In (ConsoleError (raw_line header)) (trace (x402_fetch rt (Some a))) /\
  outcome (x402_fetch rt (Some a)) = inr (success response true None content).
Proof.
  intros E C A N F.
  destruct (decode_fails_throws rt header F) as [e D].
  pose proof (payment_info_caught rt header [] e N D) as I.
  rewrite <- A in I.
  destruct (x402_fetch_returns rt a response content _ _ E C I) as [O L].
  split.
  - apply L. now left.
  - rewrite O, A. cbn. now rewrite N.
Qed.

Lemma malformed_settlement_is_logged_not_fatal_witness :
  let P := Reference.platform (Reference.scripted [inr Sample.garbled]) in
  let run := @x402_fetch P (Sample.runtime [inr Sample.garbled]) (Some Sample.get_args) in
  In (ConsoleError "[x402-fetch] Payment response (raw): !!!") (trace run) /\
  outcome run = inr (success Sample.garbled true None "hello").
Proof.
  cbv zeta.
  apply (@malformed_settlement_is_logged_not_fatal
           (Reference.platform (Reference.scripted [inr Sample.garbled]))
           (Sample.runtime [inr Sample.garbled]) Sample.get_args Sample.garbled
           "hello" "!!!"); try reflexivity.
  left. eexists. reflexivity.
Defined.

(** C2, as stated, fails: a settlement header that is present with an empty
    value cannot be parsed ([atob] gives the empty string, on which
    [JSON.parse] throws), and no failure is logged: the handler never tries
    to decode it and writes the line for a response without payment. *)
Lemma empty_settlement_header_is_not_logged :
  let P := Reference.platform (Reference.scripted [inr Cases.empty_header]) in
  let run := @x402_fetch P (Sample.runtime [inr Cases.empty_header])
               (Some Sample.get_args) in
  get (headers Cases.empty_header) primary = Some "" /\
  @decode_fails P "" /\
  logged (trace run)
  = ["[x402-fetch] ========================================";
     "[x402-fetch] Fetching: GET https://example.org/resource";
     "[x402-fetch] Wallet: 0x00000000000000000000000000000000000000a1";
     "[x402-fetch] Response status: 200 OK";
     "[x402-fetch] Content-Type: text/plain";
     "[x402-fetch] ℹ️ No payment was required or made";
     "[x402-fetch] Content length: 5 chars";
     "[x402-fetch] ========================================"] /\
  ~ In (ConsoleError (raw_line "")) (trace run).
Proof.
  cbv zeta. split; [reflexivity|]. split; [|split].
  - right. exists "". eexists. split; reflexivity.
  - reflexivity.
  - intros Hin. vm_compute in Hin.
    repeat (destruct Hin as [Hin | Hin]; [discriminate Hin|]). exact Hin.
Qed.

(** C10.  The outcome's [paymentMade] is the truthiness of the header lookup
    and nothing else: with a settlement header, a non-empty value under one
    of the two names, that cannot be parsed (atob or JSON.parse throws on
    it), it is [true] while [payment] is [null]. *)
Theorem paymentMade_follows_header `{Platform} (rt : Runtime) (a : Args)
  (response : Response) (content : string) :
  x402Fetch rt (arg_url a) (request_of a) = inr response ->
  outcome (read_content response (contentType response)) = inr content ->
  exists payment,
    outcome (x402_fetch rt (Some a))
    = inr (success response (truthy_opt (actualPaymentResponse response)) payment content) /\
    (forall header,
        actualPaymentResponse response = Some header -> nonempty header = true ->
        decode_fails header ->
        truthy_opt (actualPaymentResponse response) = true /\ payment = None).
Proof.
  intros E C.
  destruct (payment_info_returns rt (actualPaymentResponse response)) as [w [p I]].
  destruct (x402_fetch_returns rt a response content w p E C I) as [O _].
  exists p. split; [exact O|].
  intros header A N F. rewrite A in *. split; [exact N|].
  destruct (decode_fails_throws rt header F) as [e D].
  rewrite (payment_info_caught rt header [] e N D) in I. congruence.
Qed.

Lemma paymentMade_follows_header_witness :
  let P := Reference.platform (Reference.scripted [inr Sample.garbled]) in
  outcome (@x402_fetch P (Sample.runtime [inr Sample.garbled]) (Some Sample.get_args))
  = inr (success Sample.garbled true None "hello").
Proof.
  cbv zeta.
  destruct (@paymentMade_follows_header
              (Reference.platform (Reference.scripted [inr Sample.garbled]))
              (Sample.runtime [inr Sample.garbled]) Sample.get_args Sample.garbled
              "hello" eq_refl eq_refl) as [payment [O F]].
  destruct (F "!!!" eq_refl eq_refl) as [_ ->].
  - left. eexists. reflexivity.
  - exact O.
Defined.

(** C10, as stated, fails: with a settlement header that is present with an
    empty value, whose content cannot be parsed, the outcome reports
    [paymentMade: false]; the flag follows the truthiness of the value, not
    the presence of the header. *)
Lemma empty_settlement_header_is_no_payment :
  let P := Reference.platform (Reference.scripted [inr Cases.empty_fallback]) in
  get (headers Cases.empty_fallback) primary = None /\
  get (headers Cases.empty_fallback) fallback = Some "" /\
  @decode_fails P "" /\
  outcome (@x402_fetch P (Sample.runtime [inr Cases.empty_fallback])
             (Some Sample.get_args))
  = inr (success Cases.empty_fallback false None "hello").
Proof.
  cbv zeta. split; [reflexivity|]. split; [reflexivity|]. split; [|reflexivity].
  right. exists "". eexists. split; reflexivity.
Qed.



(** ** The issued request *)

Lemma fetchOptions_body (method : string) (hs : list (string * string))
  (body : option string) :
  opt_body (fetchOptions method hs body) =
  if (truthy_opt body &&
      (String.eqb method "POST" || String.eqb method "PUT" || String.eqb method "PATCH"))%bool
  then body else None.
Proof. unfold fetchOptions. now destruct (_ && _)%bool. Qed.

(** C8.  Each invocation hands exactly one request to [x402Fetch].  With a
    method other than "POST", "PUT" and "PATCH" (the default "GET" among
    them) that request has no body, whatever body argument was supplied; a
    request that has a body has the supplied one and one of the three
    methods. *)
Theorem body_only_with_post_put_patch `{Platform} (rt : Runtime) (a : Args) :
  issued (trace (x402_fetch rt (Some a))) = [(arg_url a, request_of a)] /\
  opt_method (request_of a) = method_of a /\
  (method_of a <> "POST" -> method_of a <> "PUT" -> method_of a <> "PATCH" ->
   opt_body (request_of a) = None) /\
  (forall b, opt_body (request_of a) = Some b ->
             arg_body a = Some b /\
             (method_of a = "POST" \/ method_of a = "PUT" \/ method_of a = "PATCH")).
Proof.
  split; [apply x402_fetch_issues_one|].
  unfold request_of. rewrite fetchOptions_body.
  split; [unfold fetchOptions; now destruct (_ && _)%bool|].
  split.
  - intros N1 N2 N3.
    rewrite <- String.eqb_neq in N1, N2, N3. rewrite N1, N2, N3.
    now rewrite andb_false_r.
  - intros b. destruct (truthy_opt (arg_body a)); cbn; [|discriminate].
    destruct (String.eqb_spec (method_of a) "POST") as [-> | _]; cbn; [now auto|].
    destruct (String.eqb_spec (method_of a) "PUT") as [-> | _]; cbn; [now auto|].
    destruct (String.eqb_spec (method_of a) "PATCH") as [-> | _]; cbn; [now auto|].
    discriminate.
Qed.

Lemma body_only_with_post_put_patch_witness :
  let P := Reference.platform (Reference.scripted [inr Sample.free]) in
  let a := mkArgs "https://example.org/resource" (Some "DELETE") None (Some "q=1") in
  issued (trace (@x402_fetch P (Sample.runtime [inr Sample.free]) (Some a)))
  = [("https://example.org/resource", mkOptions "DELETE" [] None)] /\
  opt_body (request_of a) = None /\
  opt_body (request_of Sample.post_args) = Some "q=1".
Proof.
  cbv zeta.
  destruct (@body_only_with_post_put_patch
              (Reference.platform (Reference.scripted [inr Sample.free]))
              (Sample.runtime [inr Sample.free])
              (mkArgs "https://example.org/resource" (Some "DELETE") None (Some "q=1")))
    as [I [_ [B _]]].
  split; [exact I|]. split; [|reflexivity].
  apply B; discriminate.
Defined.

(** ** The payment information *)

(** The chain is chosen at startup by NETWORK alone. *)
Lemma startup_chain `{Platform} (env : Environment) w rt :
  startup env = (w, Serving rt) ->
  chain rt = if String.eqb (or_str (env "NETWORK") "baseSepolia") "base"
             then base else baseSepolia.
Proof.
  unfold startup. destruct (negb (truthy_opt (env "PRIVATE_KEY"))); [discriminate|].
  destruct (privateKeyToAccount _) as [e | address]; [discriminate|].
  destruct (BigInt _) as [e | maxPayment]; [discriminate|].
  destruct (main _) as [w' [e | u]]; [discriminate|].
  intros E. injection E as _ <-. reflexivity.
Qed.

(** C9.  Whenever the outcome of a fetch carries payment information, its
    [network] is the name of the chain chosen at startup from the NETWORK
    environment variable, whatever the settlement header contains.  For a
    settlement header that parses, the outcome carries payment information
    when the parsed value is not [null] and line 138 does not throw on its
    amount; when the value is [null], or [Number] throws on the amount (an
    object with a [toString] entry), the payment is [null]. *)
Theorem payment_network_is_the_configured_chain `{Platform} (env : Environment) w
  (rt : Runtime) (a : Args) :
  startup env = (w, Serving rt) ->
  (forall result p,
      outcome (x402_fetch rt (Some a)) = inr result ->
      payment_of result = Some p ->
      network p = chain_name (configured_chain env)) /\
  (forall (response : Response) (content header raw : string) (decoded : value),
      x402Fetch rt (arg_url a) (request_of a) = inr response ->
      outcome (read_content response (contentType response)) = inr content ->
      actualPaymentResponse response = Some header ->
      nonempty header = true ->
      atob header = inr raw ->
      JSON_parse raw = inr decoded ->
      (nullish decoded = false ->
       forall usdc, outcome (amountUsdc (prop decoded "amount")) = inr usdc ->
       exists p,
         outcome (x402_fetch rt (Some a)) = inr (success response true (Some p) content) /\
         network p = chain_name (configured_chain env)) /\
      (nullish decoded = true \/
       (exists e, outcome (amountUsdc (prop decoded "amount")) = inl e) ->
       outcome (x402_fetch rt (Some a)) = inr (success response true None content))).
Proof.
  intros S.
  assert (Ch : chain rt = configured_chain env) by exact (startup_chain env w rt S).
  split.
  - intros result p O P. rewrite <- Ch.
    destruct (x402Fetch rt (arg_url a) (request_of a)) as [e | response] eqn:E.
    { rewrite x402_fetch_eq in O.
      destruct (fetch_body_fetch_throws rt _ _ _ _ e E) as [O' _].
      rewrite (outcome_try_catch_throw _ _ e O') in O.
      injection O as <-. discriminate P. }
    destruct (outcome (read_content response (contentType response)))
      as [e | content] eqn:C.
    { rewrite x402_fetch_eq in O.
      destruct (fetch_body_content_throws rt _ _ _ _ response e E C) as [O' _].
      rewrite (outcome_try_catch_throw _ _ e O') in O.
      injection O as <-. discriminate P. }
    destruct (payment_info_returns rt (actualPaymentResponse response)) as [w' [q I]].
    destruct (x402_fetch_returns rt a response content w' q E C I) as [O' _].
    rewrite O' in O. injection O as <-. cbn in P. subst q.
    exact (payment_info_network rt _ w' p I).
  - intros response content header raw decoded E C A N E1 E2. split.
    + intros D usdc U. eexists. split.
      * exact (x402_fetch_decoded rt a response content header raw decoded usdc
                 E C A N E1 E2 D U).
      * cbn [network]. now rewrite Ch.
    + intros [D | [e U]].
      * destruct (decode_payment_null_throws rt header raw decoded E1 E2 D) as [e T].
        exact (proj2 (x402_fetch_undecoded rt a response content header e E C A N T)).
      * destruct (nullish decoded) eqn:D.
        { destruct (decode_payment_null_throws rt header raw decoded E1 E2 D) as [e' T].
          exact (proj2 (x402_fetch_undecoded rt a response content header e' E C A N T)). }
        pose proof (decode_payment_amount_throws rt header raw decoded e E1 E2 D U) as T.
        exact (proj2 (x402_fetch_undecoded rt a response content header e E C A N T)).
Qed.

Lemma payment_network_is_the_configured_chain_witness :
  let P := Reference.platform (Reference.scripted [inr Sample.paid]) in
  exists p,
    outcome (@x402_fetch P (Sample.runtime [inr Sample.paid]) (Some Sample.get_args))
    = inr (success Sample.paid true (Some p) "hello") /\
    network p = "Base Sepolia" /\
    JS.lookup "network"
      (match Reference.JSON_parse
               (match Reference.atob Sample.settled_header with inr r => r | inl _ => "" end)
       with inr (Obj props) => props | _ => [] end)
    = Some (Str "mainnet").
Proof.
  cbv zeta.
  destruct (@payment_network_is_the_configured_chain
              (Reference.platform (Reference.scripted [inr Sample.paid]))
              Sample.env _ (Sample.runtime [inr Sample.paid]) Sample.get_args eq_refl)
    as [_ Parsed].
  destruct (Parsed Sample.paid "hello" Sample.settled_header _ _
              eq_refl eq_refl eq_refl eq_refl eq_refl eq_refl) as [Kept _].
  destruct (Kept eq_refl _ eq_refl) as [p [O Nw]].
  exists p. split; [exact O|]. split; [exact Nw | reflexivity].
Defined.

(** C9, as stated, fails: the settlement header of [Cases.object_amount]
    parses, to [{amount: {toString: 1}}], and the outcome has no payment
    information at all, since [Number] throws on the amount inside the inner
    [try]; likewise for a header that parses to [null]. *)
Lemma parsed_receipt_without_payment :
  let P := Reference.platform (Reference.scripted [inr Cases.object_amount]) in
  let Q := Reference.platform (Reference.scripted [inr Cases.null_receipt]) in
  match Reference.atob "eyJhbW91bnQiOnsidG9TdHJpbmciOjF9fQ==" with
  | inr raw => Reference.JSON_parse raw
  | inl e => inl e
  end = inr (Obj [("amount", Obj [("toString", Num (of_Z 1))])]) /\
  outcome (@x402_fetch P (Sample.runtime [inr Cases.object_amount]) (Some Sample.get_args))
  = inr (success Cases.object_amount true None "hello") /\
  match Reference.atob "bnVsbA==" with
  | inr raw => Reference.JSON_parse raw
  | inl e => inl e
  end = inr Null /\
  outcome (@x402_fetch Q (Sample.runtime [inr Cases.null_receipt]) (Some Sample.get_args))
  = inr (success Cases.null_receipt true None "hello").
Proof.
  cbv zeta. repeat split; vm_compute; reflexivity.
Qed.

(** ** The challenge-retry client of the spec *)

Import Client.

Lemma x402_fetch_fetch_throws `{Platform} (rt : Runtime) (a : Args) e :
  x402Fetch rt (arg_url a) (request_of a) = inl e ->
  outcome (x402_fetch rt (Some a)) = inr (failure e).
Proof.
  intros E. rewrite x402_fetch_eq.
  destruct (fetch_body_fetch_throws rt _ _ _ _ e E) as [O _].
  now rewrite (outcome_try_catch_throw _ _ e O).
Qed.

(** The events of a logical call, by how far it got. *)
Lemma challenge_retry_events `{Collaborators} (ceiling : Z) (operating url : string)
  (init : FetchOptions) :
  let call := challenge_retry ceiling operating url init in
  fst call = [Sent url init] \/
  (exists requirement amount, fst call = [Sent url init; Signed requirement amount] /\
                              exists e, snd call = inl (SigningFailure e)) \/
  (exists requirement amount auth,
      sign requirement amount = inr auth /\
      fst call = [Sent url init; Signed requirement amount;
                  Sent url (attach init proof_header (encode auth))] /\
      snd call = match transport 1 url (attach init proof_header (encode auth)) with
                 | inl e => inl (TransportFailure e)
                 | inr second => if (status second =? 402)%Z
                                 then inl DoublePaymentChallenge else inr second
                 end).
Proof.
  cbv zeta. unfold challenge_retry.
  destruct (transport 0 url init) as [e | first]; [now left|].
  destruct (decodeChallenge first) as [| | requirement]; [now left | now left |].
  destruct (decide requirement ceiling operating clock) as [amount | why]; [|now left].
  destruct (sign requirement amount) as [e | auth] eqn:S.
  - right. left. exists requirement, amount. split; [reflexivity|]. now exists e.
  - right. right. exists requirement, amount, auth. split; [exact S|].
    destruct (transport 1 url _) as [e | second]; [now split|].
    destruct (status second =? 402)%Z; now split.
Qed.

(** C7, against the client as the spec describes it.  The facade calls the
    client once per invocation; a logical call of the client asks for at
    most one signature and sends at most two requests; and when the answer
    to the paid retry is another 402, no second signature is asked for, the
    call fails with [DoublePaymentChallenge], and the facade returns that as
    its error outcome. *)
Theorem at_most_one_payment `{Platform} `{Collaborators} (rt : Runtime) (a : Args)
  (walletClient : WalletClient) (ceiling : Z) :
  let call := challenge_retry ceiling (network_id (wallet_chain walletClient))
                (arg_url a) (request_of a) in
  x402Fetch rt = Client.wrapFetchWithPayment walletClient ceiling ->
  List.length (issued (trace (x402_fetch rt (Some a)))) = 1%nat /\
  (signatures (fst call) <= 1)%nat /\
  (requests (fst call) <= 2)%nat /\
  (forall paid second,
      nth_error (fst call) 2 = Some (Sent (arg_url a) paid) ->
      transport 1 (arg_url a) paid = inr second ->
      status second = 402%Z ->
      signatures (fst call) = 1%nat /\
      snd call = inl DoublePaymentChallenge /\
      outcome (x402_fetch rt (Some a)) = inr (failure (mkError "DoublePaymentChallenge"))).
Proof.
  cbv zeta. intros W.
  split; [now rewrite x402_fetch_issues_one|].
  pose proof (challenge_retry_events ceiling (network_id (wallet_chain walletClient))
                (arg_url a) (request_of a)) as Ev.
  cbv zeta in Ev.
  destruct Ev as [Ev | [[q [amt [Ev _]]] | [q [amt [auth [_ [Ev R]]]]]]];
    rewrite Ev; (split; [cbn; lia|]); (split; [cbn; lia|]);
    intros paid second Hn T St; try discriminate Hn.
  cbn in Hn. injection Hn as <-.
  rewrite T, St in R. cbn in R.
  split; [reflexivity|]. split; [exact R|].
  apply x402_fetch_fetch_throws. rewrite W. unfold Client.wrapFetchWithPayment.
  now rewrite R.
Qed.

Lemma at_most_one_payment_witness :
  let script := [inr Sample.challenge; inr Sample.challenge] in
  let P := Reference.platform (Reference.scripted script) in
  let C := Reference.collaborators Sample.address (Reference.scripted script) in
  let call := @challenge_retry C 1000000 "base-sepolia"
                "https://example.org/resource" (request_of Sample.post_args) in
  signatures (fst call) = 1%nat /\
  snd call = inl DoublePaymentChallenge /\
  outcome (@x402_fetch P (Sample.runtime script) (Some Sample.post_args))
  = inr (failure (mkError "DoublePaymentChallenge")).
Proof.
  cbv zeta.
  destruct (@at_most_one_payment
              (Reference.platform
                 (Reference.scripted [inr Sample.challenge; inr Sample.challenge]))
              (Reference.collaborators Sample.address
                 (Reference.scripted [inr Sample.challenge; inr Sample.challenge]))
              (Sample.runtime [inr Sample.challenge; inr Sample.challenge])
              Sample.post_args (mkWallet Sample.address Reference.baseSepolia) 1000000
              eq_refl) as [_ [_ [_ D]]].
  exact (D _ Sample.challenge eq_refl eq_refl eq_refl).
Defined.

(** ** Six decimal places *)

Lemma digit_char_is_digit (n : Z) : Observe.is_digit (digit_char (n mod 10)) = true.
Proof.
  pose proof (Z.mod_pos_bound n 10 eq_refl) as B.
  assert (C : (n mod 10 = 0 \/ n mod 10 = 1 \/ n mod 10 = 2 \/ n mod 10 = 3 \/
               n mod 10 = 4 \/ n mod 10 = 5 \/ n mod 10 = 6 \/ n mod 10 = 7 \/
               n mod 10 = 8 \/ n mod 10 = 9)%Z) by lia.
  repeat (destruct C as [-> | C]; [reflexivity|]). now rewrite C.
Qed.

Lemma digits_aux_all_digits (fuel : nat) (n : Z) (acc : list ascii) :
  forallb Observe.is_digit acc = true ->
  forallb Observe.is_digit (digits_aux fuel n acc) = true.
Proof.
  revert n acc. induction fuel as [|fuel IH]; intros n acc A; cbn [digits_aux]; [exact A|].
  assert (A' : forallb Observe.is_digit (digit_char (n mod 10) :: acc) = true).
  { cbn [forallb]. now rewrite digit_char_is_digit. }
  destruct (n / 10 =? 0)%Z; [exact A' | now apply IH].
Qed.

Lemma digits_all_digits (n : Z) : forallb Observe.is_digit (digits n) = true.
Proof. now apply digits_aux_all_digits. Qed.

Lemma repeat_zero_all_digits (k : nat) :
  forallb Observe.is_digit (List.repeat "0"%char k) = true.
Proof. induction k; simpl; [reflexivity | assumption]. Qed.

Lemma list_ascii_of_string_app (s t : string) :
  list_ascii_of_string (s ++ t) = (list_ascii_of_string s ++ list_ascii_of_string t)%list.
Proof. induction s as [|c s IH]; simpl; [reflexivity | now rewrite IH]. Qed.

(** The string [toFixed] builds from a digit list has six places. *)
Lemma point_at_six_places (negative : bool) (ds : list ascii) :
  (1 <= List.length ds)%nat -> forallb Observe.is_digit ds = true ->
  six_places ((if negative then "-" else "") ++ string_of_list_ascii (point_at 6 ds)) = true.
Proof.
  intros L D. unfold six_places.
  rewrite list_ascii_of_string_app, list_ascii_of_string_of_list_ascii.
  unfold point_at.
  set (m := if (List.length ds <=? 6)%nat
            then (List.repeat "0"%char (6 + 1 - List.length ds) ++ ds)%list else ds).
  assert (Lm : (7 <= List.length m)%nat).
  { unfold m. destruct (Nat.leb_spec (List.length ds) 6).
    - rewrite length_app, repeat_length. lia.
    - lia. }
  assert (Dm : forallb Observe.is_digit m = true).
  { unfold m. destruct (List.length ds <=? 6)%nat; [|exact D].
    rewrite forallb_app, repeat_zero_all_digits. exact D. }
  set (k := List.length m) in *.
  assert (Ha : List.length (firstn (k - 6) m) = (k - 6)%nat) by (apply firstn_length_le; lia).
  assert (Da : forallb Observe.is_digit (firstn (k - 6) m) = true).
  { rewrite <- (firstn_skipn (k - 6) m), forallb_app in Dm.
    now apply andb_true_iff in Dm. }
  assert (Db : forallb Observe.is_digit (skipn (k - 6) m) = true).
  { rewrite <- (firstn_skipn (k - 6) m), forallb_app in Dm.
    now apply andb_true_iff in Dm. }
  assert (Hb : List.length (skipn (k - 6) m) = 6%nat) by (rewrite length_skipn; lia).
  set (A := firstn (k - 6) m) in *. set (B := skipn (k - 6) m) in *.
  assert (Stripped :
            unsigned ((list_ascii_of_string (if negative then "-" else "")) ++ A ++ "."%char :: B)%list
            = (A ++ "."%char :: B)%list).
  { destruct negative; [reflexivity|]. cbn [list_ascii_of_string app].
    destruct A as [|c A']; [simpl in Ha; lia|].
    cbn [forallb] in Da. apply andb_true_iff in Da. destruct Da as [Dc _].
    cbn [app]. destruct (Ascii.eqb_spec c "-") as [-> | Ne].
    - discriminate Dc.
    - destruct c as [[] [] [] [] [] [] [] []]; try reflexivity. now contradiction Ne. }
  cbv zeta.   rewrite Stripped.
  rewrite length_app. simpl List.length. rewrite Ha, Hb.
  replace (k - 6 + 7 - 7)%nat with (List.length A + 0)%nat by lia.
  rewrite firstn_app_2, skipn_app, firstn_O, app_nil_r.
  replace (List.length A + 0 - List.length A)%nat with 0%nat by lia.
  rewrite skipn_all2 by lia. cbn [app skipn].
  rewrite Da, Db.
  destruct (Nat.leb_spec 8 (k - 6 + 7)); [reflexivity | lia].
Qed.

Lemma toFixed6_six_places (x : spec_float) :
  below_1e21 x = true -> six_places (toFixed6 x) = true.
Proof.
  destruct x as [s | s | | s m e]; try discriminate.
  - intros _. unfold toFixed6. apply (point_at_six_places false).
    + apply digits_nonempty.
    + apply digits_all_digits.
  - unfold below_1e21. intros B. apply negb_true_iff in B. unfold toFixed6. rewrite B.
    apply point_at_six_places.
    + apply digits_nonempty.
    + apply digits_all_digits.
Qed.

Local Open Scope Z_scope.

(** ** Binary64 division by 1000000 *)

Lemma digits2_pos_size (p : positive) : digits2_pos p = Pos.size p.
Proof. induction p as [p IH | p IH |]; simpl; now rewrite ?IH. Qed.

Lemma digits2_pos_bounds (p : positive) :
  2 ^ (Zpos (digits2_pos p) - 1) <= Zpos p < 2 ^ Zpos (digits2_pos p).
Proof.
  rewrite digits2_pos_size.
  pose proof (Pos.size_gt p) as G. pose proof (Pos.size_le p) as L.
  apply Pos2Z.pos_lt_pos in G. apply Pos2Z.pos_le_pos in L.
  rewrite Pos2Z.inj_pow in G, L.
  replace (Zpos (Pos.size p)) with (Z.succ (Zpos (Pos.size p) - 1)) in L by lia.
  rewrite Z.pow_succ_r in L by lia. lia.
Qed.

Lemma digits2_pos_unique (p : positive) (d : Z) :
  2 ^ (d - 1) <= Zpos p < 2 ^ d -> Zpos (digits2_pos p) = d.
Proof.
  intros [Lo Hi]. pose proof (digits2_pos_bounds p) as [Lo' Hi'].
  set (D := Zpos (digits2_pos p)) in *.
  assert (0 < D) by (unfold D; lia).
  assert (0 < d).
  { destruct (Z_lt_le_dec 0 d) as [|N]; [assumption|].
    assert (2 ^ d <= 1); [|lia].
    destruct (Z.eq_dec d 0) as [-> | Nz]; [simpl; lia|].
    rewrite Z.pow_neg_r by lia. lia. }
  destruct (Z_lt_le_dec D d) as [Lt|Ge].
  - assert (2 ^ D <= 2 ^ (d - 1)) by (apply Z.pow_le_mono_r; lia). lia.
  - destruct (Z_lt_le_dec d D) as [Lt|Ge']; [|lia].
    assert (2 ^ d <= 2 ^ (D - 1)) by (apply Z.pow_le_mono_r; lia). lia.
Qed.

Lemma Zdigits2_unique (q d : Z) :
  0 < q -> 2 ^ (d - 1) <= q < 2 ^ d -> Zdigits2 q = d.
Proof.
  intros P B. destruct q as [|p|p]; try lia. cbn [Zdigits2].
  now apply digits2_pos_unique.
Qed.

Lemma half_xI (p : positive) : Zpos p~1 / 2 = Zpos p.
Proof.
  change (Zpos p~1) with (2 * Zpos p + 1).
  replace (2 * Zpos p + 1) with (1 + Zpos p * 2) by lia.
  rewrite Z.div_add by lia. reflexivity.
Qed.

Lemma half_xO (p : positive) : Zpos p~0 / 2 = Zpos p.
Proof.
  change (Zpos p~0) with (2 * Zpos p).
  replace (2 * Zpos p) with (0 + Zpos p * 2) by lia.
  rewrite Z.div_add by lia. reflexivity.
Qed.

Lemma shr_1_spec (m : Z) (r s : bool) :
  0 <= m ->
  shr_1 (Build_shr_record m r s) = Build_shr_record (m / 2) (Z.odd m) (r || s).
Proof.
  intros P. destruct m as [|[p|p|]|p]; try lia; cbn [shr_1 Z.odd].
  - reflexivity.
  - now rewrite half_xI.
  - now rewrite half_xO.
  - reflexivity.
Qed.

(** [shr_fexp] on a mantissa of 53 bits shifts nothing, on one of 54 bits
    by one place. *)
Lemma shr_fexp_53 (m e : Z) (l : location) :
  2 ^ 52 <= m < 2 ^ 53 -> -1074 <= e ->
  shr_fexp prec emax m e l = (shr_record_of_loc m l, e).
Proof.
  intros B E. unfold shr_fexp.
  rewrite (Zdigits2_unique m 53) by (cbn; lia).
  replace (fexp prec emax (53 + e) - e) with 0 by (unfold fexp, emin, prec, emax; lia).
  reflexivity.
Qed.

Lemma shr_fexp_54 (m e : Z) (l : location) :
  2 ^ 53 <= m < 2 ^ 54 -> -1074 <= e ->
  shr_fexp prec emax m e l = (shr_1 (shr_record_of_loc m l), e + 1).
Proof.
  intros B E. unfold shr_fexp.
  rewrite (Zdigits2_unique m 54) by (cbn; lia).
  replace (fexp prec emax (54 + e) - e) with 1 by (unfold fexp, emin, prec, emax; lia).
  reflexivity.
Qed.

Lemma loc_of_shr_record_of_loc (m : Z) (l : location) :
  loc_of_shr_record (shr_record_of_loc m l) = l.
Proof. destruct l as [|[| |]]; reflexivity. Qed.

Lemma shr_m_of_loc (m : Z) (l : location) : shr_m (shr_record_of_loc m l) = m.
Proof. destruct l as [|[| |]]; reflexivity. Qed.

(** Rounding a mantissa [m1] of 53 bits, or 2^53 after a carry, that is
    already in place. *)
Lemma binary_round_finish (s : bool) (m1 e1 : Z) :
  2 ^ 52 <= m1 <= 2 ^ 53 -> -1074 <= e1 <= 960 ->
  exists m2 e2,
    (let '(mrs, e') := shr_fexp prec emax m1 e1 loc_Exact in
     match shr_m mrs with
     | Z0 => S754_zero s
     | Zpos m => if e' <=? emax - prec then S754_finite s m e' else S754_infinity s
     | Zneg _ => S754_nan
     end) = S754_finite s m2 e2 /\
    2 ^ 52 <= Zpos m2 < 2 ^ 53 /\
    e1 <= e2 <= e1 + 1 /\
    Zpos m2 * 2 ^ (e2 - e1) = m1.
Proof.
  intros B E. destruct (Z_lt_le_dec m1 (2 ^ 53)) as [Lt | Ge].
  - rewrite shr_fexp_53 by lia. cbn [shr_record_of_loc shr_m].
    destruct m1 as [|p|p]; try (cbn in B; lia).
    exists p, e1. replace (e1 <=? emax - prec) with true
      by (symmetry; apply Z.leb_le; unfold emax, prec; lia).
    rewrite Z.sub_diag. cbn [Z.pow]. repeat split; lia.
  - assert (m1 = 2 ^ 53) as -> by lia.
    rewrite shr_fexp_54 by (cbn; lia). cbn [shr_record_of_loc].
    rewrite shr_1_spec by (cbn; lia).
    cbn [shr_m]. change (2 ^ 53 / 2) with (Zpos (2 ^ 52)).
    exists (2 ^ 52)%positive, (e1 + 1).
    replace (e1 + 1 <=? emax - prec) with true
      by (symmetry; apply Z.leb_le; unfold emax, prec; lia).
    replace (e1 + 1 - e1) with 1 by lia.
    repeat split; try lia; reflexivity.
Qed.

(** The location of a quotient with remainder [r] out of an even [my]. *)
Lemma new_location_even_spec (my r : Z) :
  Z.even my = true ->
  new_location my r =
  if r =? 0 then loc_Exact else loc_Inexact (Z.compare (2 * r) my).
Proof. intros Ev. unfold new_location. rewrite Ev. reflexivity. Qed.

(** Round to nearest, ties to even, of [q + r / my] lands within half a
    unit. *)
Lemma round_nearest_even_error (q r my : Z) :
  0 < my -> Z.even my = true -> 0 <= r < my ->
  let m1 := round_nearest_even q (new_location my r) in
  q <= m1 <= q + 1 /\ 2 * Z.abs (m1 * my - (q * my + r)) <= my.
Proof.
  intros P Ev R. cbv zeta. rewrite new_location_even_spec by assumption.
  destruct (Z.eqb_spec r 0) as [-> | Nz]; cbn [round_nearest_even].
  - split; lia.
  - destruct (Z.compare_spec (2 * r) my) as [Eq | Lt | Gt].
    + destruct (Z.even q); split; lia.
    + split; lia.
    + split; lia.
Qed.

(** The same after one place is shifted out of [q]. *)
Lemma round_shifted_error (q r my : Z) :
  0 < q -> 0 < my -> Z.even my = true -> 0 <= r < my ->
  let mrs := shr_1 (shr_record_of_loc q (new_location my r)) in
  let m1 := round_nearest_even (shr_m mrs) (loc_of_shr_record mrs) in
  q / 2 <= m1 <= q / 2 + 1 /\ Z.abs (2 * m1 * my - (q * my + r)) <= my.
Proof.
  intros Q P Ev R. cbv zeta. rewrite new_location_even_spec by assumption.
  pose proof (Z.div_mod q 2 ltac:(lia)) as Dm. rewrite Zmod_odd in Dm.
  set (h := q / 2) in *.
  assert (Hq : q * my = 2 * h * my + (if Z.odd q then 1 else 0) * my) by (rewrite Dm at 1; ring).
  destruct (Z.eqb_spec r 0) as [-> | Nz].
  - cbn [shr_record_of_loc]. rewrite shr_1_spec by lia. fold h.
    cbn [shr_m loc_of_shr_record orb].
    destruct (Z.odd q); cbn [round_nearest_even].
    + destruct (Z.even h); split; lia.
    + split; lia.
  - assert (L : forall c, shr_1 (shr_record_of_loc q (loc_Inexact c))
                          = Build_shr_record h (Z.odd q) true).
    { intros [| |]; cbn [shr_record_of_loc]; rewrite shr_1_spec by lia; fold h;
        now rewrite ?orb_true_r. }
    rewrite L. cbn [shr_m loc_of_shr_record].
    destruct (Z.odd q); cbn [round_nearest_even]; split; lia.
Qed.

(** [binary_round_aux] on a quotient of 53 or 54 bits: the result is finite
    and within half a unit in the last place of [q + r / my]. *)
Lemma round_quotient (s : bool) (q r my e : Z) :
  0 < my -> Z.even my = true -> 0 <= r < my ->
  2 ^ 52 <= q < 2 ^ 54 -> -1074 <= e <= 950 ->
  exists m2 e2,
    binary_round_aux prec emax s q e (new_location my r) = S754_finite s m2 e2 /\
    2 ^ 52 <= Zpos m2 < 2 ^ 53 /\
    e <= e2 <= e + 2 /\
    2 * Z.abs (Zpos m2 * 2 ^ (e2 - e) * my - (q * my + r))
    <= (if q <? 2 ^ 53 then 1 else 2) * my.
Proof.
  intros P Ev R Q E. unfold binary_round_aux.
  destruct (Z.ltb_spec q (2 ^ 53)) as [Lt | Ge].
  - rewrite shr_fexp_53 by lia.
    rewrite shr_m_of_loc, loc_of_shr_record_of_loc.
    destruct (round_nearest_even_error q r my P Ev R) as [B Err].
    set (m1 := round_nearest_even q (new_location my r)) in *.
    destruct (binary_round_finish s m1 e ltac:(lia) ltac:(lia)) as [m2 [e2 [-> [Bm [Be V]]]]].
    exists m2, e2. split; [reflexivity|]. split; [exact Bm|]. split; [lia|].
    rewrite V. lia.
  - rewrite shr_fexp_54 by lia.
    destruct (round_shifted_error q r my ltac:(lia) P Ev R) as [B Err].
    set (mrs := shr_1 (shr_record_of_loc q (new_location my r))) in *.
    set (m1 := round_nearest_even (shr_m mrs) (loc_of_shr_record mrs)) in *.
    assert (Hh : 2 ^ 52 <= q / 2 < 2 ^ 53).
    { split.
      - apply Z.div_le_lower_bound; lia.
      - apply Z.div_lt_upper_bound; lia. }
    destruct (binary_round_finish s m1 (e + 1) ltac:(lia) ltac:(lia))
      as [m2 [e2 [-> [Bm [Be V]]]]].
    exists m2, e2. split; [reflexivity|]. split; [exact Bm|]. split; [lia|].
    replace (e2 - e) with (Z.succ (e2 - (e + 1))) by lia.
    rewrite Z.pow_succ_r by lia.
    replace (Zpos m2 * (2 * 2 ^ (e2 - (e + 1))) * my)
      with (2 * (Zpos m2 * 2 ^ (e2 - (e + 1))) * my) by ring.
    rewrite V. lia.
Qed.

(** The core of the division of two 53-bit mantissas: the dividend is
    shifted by 53 places. *)
Lemma SFdiv_core_53 (mx my : positive) (ex ey : Z) :
  2 ^ 52 <= Zpos mx < 2 ^ 53 -> 2 ^ 52 <= Zpos my < 2 ^ 53 ->
  -1000 <= ex - ey <= 1000 ->
  SFdiv_core_binary prec emax (Zpos mx) ex (Zpos my) ey =
  (Zpos mx * 2 ^ 53 / Zpos my, ex - ey - 53,
   new_location (Zpos my) ((Zpos mx * 2 ^ 53) mod Zpos my)).
Proof.
  intros Bx By E. unfold SFdiv_core_binary.
  rewrite (Zdigits2_unique (Zpos mx) 53), (Zdigits2_unique (Zpos my) 53) by (cbn; lia).
  replace (Z.min (fexp prec emax (53 + ex - (53 + ey))) (ex - ey)) with (ex - ey - 53)
    by (unfold fexp, emin, prec, emax; lia).
  replace (ex - ey - (ex - ey - 53)) with 53 by lia.
  cbv zeta iota. rewrite Z.shiftl_mul_pow2 by lia.
  unfold Z.div, Z.modulo.
  destruct (Z.div_eucl (Zpos mx * 2 ^ 53) (Zpos my)) as [q r]. reflexivity.
Qed.

Lemma of_Z_million : of_Z 1000000 = S754_finite false million_m (-33).
Proof. reflexivity. Qed.

(** Dividing a normal Number by 1000000: the quotient is a normal Number
    within half a unit in the last place of the exact quotient. *)
Lemma div_by_million (sx : bool) (mx : positive) (ex : Z) :
  2 ^ 52 <= Zpos mx < 2 ^ 53 -> -900 <= ex <= 900 ->
  exists m2 e2,
    div (S754_finite sx mx ex) (of_Z 1000000) = S754_finite sx m2 e2 /\
    2 ^ 52 <= Zpos m2 < 2 ^ 53 /\
    ex - 20 <= e2 <= ex - 18 /\
    2 * Z.abs (Zpos m2 * 2 ^ (e2 - (ex - 20)) * Zpos million_m - Zpos mx * 2 ^ 53)
    <= (if Zpos mx * 2 ^ 53 / Zpos million_m <? 2 ^ 53 then 1 else 2) * Zpos million_m.
Proof.
  intros Bx E. rewrite of_Z_million. unfold div, SFdiv.
  rewrite SFdiv_core_53 by (try assumption; unfold million_m; lia).
  rewrite xorb_false_r.
  set (X := Zpos mx * 2 ^ 53). set (my := Zpos million_m).
  assert (Pm : 0 < my) by reflexivity.
  pose proof (Z.mod_pos_bound X my Pm) as R.
  pose proof (Z.div_mod X my ltac:(lia)) as Dm.
  assert (Q : 2 ^ 52 <= X / my < 2 ^ 54).
  { split.
    - apply Z.div_le_lower_bound; [lia|]. unfold X, my, million_m. lia.
    - apply Z.div_lt_upper_bound; [lia|]. unfold X, my, million_m. lia. }
  destruct (round_quotient sx (X / my) (X mod my) my (ex - -33 - 53)
              Pm eq_refl R Q ltac:(lia)) as [m2 [e2 [Eq [Bm [Be Err]]]]].
  exists m2, e2. split; [exact Eq|]. split; [exact Bm|]. split; [lia|].
  replace (ex - 20) with (ex - -33 - 53) by lia.
  replace X with (X / my * my + X mod my) at 1 by lia. exact Err.
Qed.

Lemma binary_round_aux_exact (s : bool) (m : positive) (e : Z) :
  2 ^ 52 <= Zpos m < 2 ^ 53 -> -1074 <= e <= 960 ->
  binary_round_aux prec emax s (Zpos m) e loc_Exact = S754_finite s m e.
Proof.
  intros B E. unfold binary_round_aux.
  rewrite shr_fexp_53 by lia.
  cbn [shr_record_of_loc shr_m loc_of_shr_record round_nearest_even].
  rewrite shr_fexp_53 by lia. cbn [shr_record_of_loc shr_m].
  replace (e <=? emax - prec) with true
    by (symmetry; apply Z.leb_le; unfold emax, prec; lia).
  reflexivity.
Qed.

Lemma iter_xO_pow2 (p k : positive) : Zpos (Pos.iter xO p k) = Zpos p * 2 ^ Zpos k.
Proof.
  induction k as [|k IH] using Pos.peano_ind.
  - cbn [Pos.iter]. rewrite Pos2Z.inj_xO. change (2 ^ 1) with 2. lia.
  - rewrite Pos.iter_succ, Pos2Z.inj_xO, IH, Pos2Z.inj_succ, Z.pow_succ_r by lia. ring.
Qed.

(** The Number of a positive integer below 2^53 is the integer itself,
    with its mantissa shifted up to 53 bits. *)
Lemma binary_round_integer (s : bool) (p : positive) :
  Zpos p < 2 ^ 53 ->
  exists mx ex,
    binary_round prec emax s p 0 = S754_finite s mx ex /\
    2 ^ 52 <= Zpos mx < 2 ^ 53 /\ -52 <= ex <= 0 /\
    Zpos mx = Zpos p * 2 ^ (- ex) /\
    (Zpos p < 2 ^ 52 -> ex <= -1).
Proof.
  intros Hi. unfold binary_round.
  pose proof (digits2_pos_bounds p) as [Lo' Hi'].
  set (d := Zpos (digits2_pos p)) in *.
  assert (D : 1 <= d <= 53).
  { split; [unfold d; lia|].
    destruct (Z_lt_le_dec 53 d) as [Gt|]; [|assumption].
    assert (2 ^ 53 <= 2 ^ (d - 1)) by (apply Z.pow_le_mono_r; lia). lia. }
  replace (fexp prec emax (d + 0)) with (d - 53)
    by (unfold fexp, emin, prec, emax; lia).
  unfold shl_align. destruct (d - 53 - 0) as [|k|k] eqn:K; try lia.
  - assert (d = 53) as Ed by lia. rewrite Ed in *.
    rewrite binary_round_aux_exact by (cbn in Lo'; lia).
    exists p, 0. split; [reflexivity|]. split; [cbn in Lo'; lia|].
    split; [lia|]. split; [cbn; lia|]. cbn in Lo'. lia.
  - assert (Ek : Zpos k = 53 - d) by lia.
    assert (Pw : 2 ^ 53 = 2 ^ d * 2 ^ Zpos k).
    { rewrite <- Z.pow_add_r by lia. f_equal. lia. }
    assert (Pw' : 2 ^ 52 = 2 ^ (d - 1) * 2 ^ Zpos k).
    { rewrite <- Z.pow_add_r by lia. f_equal. lia. }
    assert (Pk : 0 < 2 ^ Zpos k) by (apply Z.pow_pos_nonneg; lia).
    assert (Bm : 2 ^ 52 <= Zpos (Pos.iter xO p k) < 2 ^ 53).
    { rewrite iter_xO_pow2, Pw, Pw'. split.
      - apply Z.mul_le_mono_nonneg_r; lia.
      - apply Z.mul_lt_mono_pos_r; lia. }
    rewrite binary_round_aux_exact by lia.
    exists (Pos.iter xO p k), (d - 53). split; [reflexivity|]. split; [exact Bm|].
    split; [lia|]. split.
    + rewrite iter_xO_pow2. f_equal. f_equal. lia.
    + lia.
Qed.

(** The millionths nearest to a quotient that is within half a unit in the
    last place of [p / 1000000], for [p] below 2^52, are [p] itself. *)
Lemma nearest_micro_exact (p mx m2 : positive) (ex e2 c : Z) :
  -52 <= ex <= -1 -> ex - 20 <= e2 <= ex - 18 -> 0 <= c <= 2 ->
  Zpos mx = Zpos p * 2 ^ (- ex) ->
  2 * Z.abs (Zpos m2 * 2 ^ (e2 - (ex - 20)) * Zpos million_m - Zpos mx * 2 ^ 53)
  <= c * Zpos million_m ->
  nearest_micro m2 e2 = Zpos p.
Proof.
  intros Ex E2 C Mx Err.
  destruct e2 as [|k|k]; try lia. unfold nearest_micro.
  set (K := 2 ^ Zpos k). set (T := 2 ^ (Zneg k - (ex - 20))) in *.
  set (W := 2 ^ (- ex)) in *.
  assert (PK : 0 < K) by (apply Z.pow_pos_nonneg; lia).
  assert (PT : 0 < T) by (apply Z.pow_pos_nonneg; lia).
  assert (KT : K * T = 1048576 * W).
  { unfold K, T, W. rewrite <- Z.pow_add_r by lia.
    change 1048576 with (2 ^ 20). rewrite <- Z.pow_add_r by lia. f_equal. lia. }
  assert (W2 : 2 <= W).
  { unfold W. change 2 with (2 ^ 1) at 1. apply Z.pow_le_mono_r; lia. }
  rewrite Mx in Err. unfold million_m in Err.
  change (2 ^ 53) with 9007199254740992 in Err.
  set (u := Zpos m2 * T) in *. set (v := Zpos p * W) in *.
  assert (Err' : Z.abs (1000000 * u - 1048576 * v) <= 1000000) by lia.
  set (a := 1000000 * Zpos m2 - Zpos p * K).
  assert (Ta : T * a = 1000000 * u - 1048576 * v).
  { unfold a, u, v. replace (1048576 * (Zpos p * W)) with (Zpos p * (1048576 * W)) by ring.
    rewrite <- KT. ring. }
  rewrite <- Ta in Err'.
  assert (Small : 2 * Z.abs a < K).
  { rewrite Z.abs_mul, (Z.abs_eq T) in Err' by lia. nia. }
  symmetry. apply (Z.div_unique _ _ _ (2 * a + K)).
  - left. rewrite Z.pow_add_r by lia. fold K. change (2 ^ 1) with 2. lia.
  - rewrite Z.pow_add_r by lia. fold K. change (2 ^ 1) with 2.
    change (10 ^ 6) with 1000000. unfold a. ring.
Qed.

Lemma below_2_53_not_1e21 (m : positive) (k : positive) :
  Zpos m < 2 ^ 53 -> at_least_1e21 m (Zneg k) = false.
Proof.
  intros B. unfold at_least_1e21. apply Z.leb_gt.
  assert (1 <= 2 ^ Zpos k) by (apply Z.lt_pred_le, Z.pow_pos_nonneg; lia).
  change (10 ^ 21) with 1000000000000000000000.
  change (2 ^ 53) with 9007199254740992 in B. nia.
Qed.

Lemma toFixed6_of_quotient (s : bool) (p : positive) :
  Zpos p < 2 ^ 52 ->
  toFixed6 (div (binary_round prec emax s p 0) (of_Z 1000000))
  = ((if s then "-" else "") ++ string_of_list_ascii (point_at 6 (digits (Zpos p))))%string.
Proof.
  intros B.
  destruct (binary_round_integer s p ltac:(lia)) as [mx [ex [-> [Bx [Ex [Mx Neg]]]]]].
  specialize (Neg B).
  destruct (div_by_million s mx ex Bx ltac:(lia)) as [m2 [e2 [-> [Bm [E2 Err]]]]].
  assert (C : 0 <= (if Zpos mx * 2 ^ 53 / Zpos million_m <? 2 ^ 53 then 1 else 2) <= 2)
    by (destruct (_ <? _); lia).
  pose proof (nearest_micro_exact p mx m2 ex e2 _ ltac:(lia) E2 C Mx Err) as N.
  unfold toFixed6. destruct e2 as [|k|k]; try lia.
  rewrite below_2_53_not_1e21 by lia. now rewrite N.
Qed.

(** [(n / 1000000).toFixed(6)] for an integer [n] with [0 < |n| < 2^52] is
    [n] millionths, exactly. *)
Lemma toFixed6_of_integer (n : Z) :
  n <> 0 -> Z.abs n < 2 ^ 52 ->
  toFixed6 (div (of_Z n) (of_Z 1000000)) = millionths n.
Proof.
  intros Nz B. unfold millionths. destruct n as [|p|p]; [contradiction| |].
  - apply (toFixed6_of_quotient false p). exact B.
  - apply (toFixed6_of_quotient true p). exact B.
Qed.

Local Close Scope Z_scope.

(** ** The amount of a payment *)

(** C6, as the code has it.  For a settlement receipt whose decoded amount
    is a non-zero Number [x], the outcome's [payment.amountRaw] is [x] and
    [payment.amount] is [(x / 1000000).toFixed(6)] followed by " USDC".  When
    the binary64 quotient is finite and below 10^21 in magnitude this is a
    decimal numeral with exactly six decimal places, and when [x] is an
    integer [n] with [|n| < 2^52] it is exactly [n] millionths (500000 gives
    "0.500000 USDC"). *)
Theorem payment_amount_in_usdc `{Platform} (rt : Runtime) (a : Args)
  (response : Response) (content header raw : string) (decoded : value)
  (x : spec_float) :
  x402Fetch rt (arg_url a) (request_of a) = inr response ->
  outcome (read_content response (contentType response)) = inr content ->
  actualPaymentResponse response = Some header ->
  nonempty header = true ->
  atob header = inr raw ->
  JSON_parse raw = inr decoded ->
  prop decoded "amount" = Num x ->
  truthy (Num x) = true ->
  exists p,
    outcome (x402_fetch rt (Some a)) = inr (success response true (Some p) content) /\
    amountRaw p = Num x /\
    amount p = Some (toFixed6 (div x (of_Z 1000000)) ++ " USDC") /\
    (below_1e21 (div x (of_Z 1000000)) = true ->
     six_places (toFixed6 (div x (of_Z 1000000))) = true) /\
    (forall n, x = of_Z n -> (Z.abs n < 2 ^ 52)%Z ->
               amount p = Some (millionths n ++ " USDC")).
Proof.
  intros E C A N E1 E2 Am T.
  assert (D : nullish decoded = false).
  { destruct decoded; try reflexivity; discriminate Am. }
  assert (U : outcome (amountUsdc (prop decoded "amount"))
              = inr (Some (toFixed6 (div x (of_Z 1000000))))).
  { rewrite Am. exact (amountUsdc_converted (Num x) x T eq_refl). }
  eexists. split.
  { exact (x402_fetch_decoded rt a response content header raw decoded _
             E C A N E1 E2 D U). }
  cbn [amountRaw amount]. rewrite Am, toFixed6_nonempty. unfold or. rewrite T.
  split; [reflexivity|]. split; [reflexivity|]. split.
  - apply toFixed6_six_places.
  - intros n -> B. rewrite toFixed6_of_integer; [reflexivity | | exact B].
    intros ->. discriminate T.
Qed.

Lemma payment_amount_in_usdc_witness :
  let P := Reference.platform (Reference.scripted [inr Sample.paid]) in
  exists p,
    outcome (@x402_fetch P (Sample.runtime [inr Sample.paid]) (Some Sample.get_args))
    = inr (success Sample.paid true (Some p) "hello") /\
    amountRaw p = Num (of_Z 500000) /\
    amount p = Some "0.500000 USDC".
Proof.
  cbv zeta.
  destruct (@payment_amount_in_usdc
              (Reference.platform (Reference.scripted [inr Sample.paid]))
              (Sample.runtime [inr Sample.paid]) Sample.get_args Sample.paid
              "hello" Sample.settled_header _ _ (of_Z 500000)
              eq_refl eq_refl eq_refl eq_refl eq_refl eq_refl eq_refl eq_refl)
    as [p [O [Raw [_ [_ Exact]]]]].
  exists p. split; [exact O|]. split; [exact Raw|].
  exact (Exact 500000%Z eq_refl eq_refl).
Defined.

(** C6, as stated, fails: the decoded amount 1e27 is a non-zero Number, and
    the outcome's amount is "1e+21 USDC", which has no six decimal places. *)
Lemma amount_of_1e27_is_exponential :
  let P := Reference.platform (Reference.scripted [inr Sample.huge]) in
  exists p,
    outcome (@x402_fetch P (Sample.runtime [inr Sample.huge]) (Some Sample.get_args))
    = inr (success Sample.huge true (Some p) "hello") /\
    amountRaw p = Num (of_Z (10 ^ 27)) /\
    truthy (amountRaw p) = true /\
    amount p = Some "1e+21 USDC" /\
    six_places "1e+21" = false.
Proof.
  cbv zeta. eexists. split; [vm_compute; reflexivity|].
  repeat split; vm_compute; reflexivity.
Qed.

(** ** The scenarios of the spec, run on the reference platform *)

Example scenario_free_resource :
  outcome (@x402_fetch (Reference.platform (Reference.scripted [inr Sample.free]))
             (Sample.runtime [inr Sample.free]) (Some Sample.get_args))
  = inr (success Sample.free false None "hello").
Proof. vm_compute. reflexivity. Qed.

Example scenario_paid_retry :
  let script := [inr Sample.challenge; inr Sample.paid] in
  let run := @x402_fetch (Reference.platform (Reference.scripted script))
               (Sample.runtime script) (Some Sample.post_args) in
  outcome run
  = inr (success Sample.paid true
           (Some {| txHash := Str "0xabc"; amount := Some "0.500000 USDC";
                    amountRaw := Num (of_Z 500000); network := "Base Sepolia";
                    settled := Bool true |}) "hello") /\
  Client.signatures
    (fst (@Client.challenge_retry
            (Reference.collaborators Sample.address (Reference.scripted script))
            1000000 "base-sepolia" "https://example.org/resource"
            (request_of Sample.post_args))) = 1%nat.
Proof. split; vm_compute; reflexivity. Qed.

Example scenario_ceiling_exceeded :
  let script := [inr Sample.challenge; inr Sample.paid] in
  @Client.challenge_retry
    (Reference.collaborators Sample.address (Reference.scripted script))
    100000 "base-sepolia" "https://example.org/resource" (request_of Sample.post_args)
  = ([Client.Sent "https://example.org/resource" (request_of Sample.post_args)],
     inl (Client.PaymentDeclined Client.CeilingExceeded)).
Proof. vm_compute. reflexivity. Qed.

(** A receipt whose amount is an object with a [toString] entry: [Number]
    throws inside the inner [try], the raw header is logged and the payment
    is [null]. *)
Example scenario_amount_object :
  let run := @x402_fetch (Reference.platform (Reference.scripted [inr Cases.object_amount]))
               (Sample.runtime [inr Cases.object_amount]) (Some Sample.get_args) in
  logged (trace run)
  = ["[x402-fetch] ========================================";
     "[x402-fetch] Fetching: GET https://example.org/resource";
     "[x402-fetch] Wallet: 0x00000000000000000000000000000000000000a1";
     "[x402-fetch] Response status: 200 OK";
     "[x402-fetch] Content-Type: text/plain";
     "[x402-fetch] Payment response (raw): eyJhbW91bnQiOnsidG9TdHJpbmciOjF9fQ==";
     "[x402-fetch] Content length: 5 chars";
     "[x402-fetch] ========================================"] /\
  outcome run = inr (success Cases.object_amount true None "hello").
Proof. cbv zeta. split; vm_compute; reflexivity. Qed.

(** A receipt whose [txHash] is such an object: [paymentInfo] is assigned
    before the template literal of line 147 throws, so the [catch] logs the
    raw header and the outcome still carries the payment. *)
Example scenario_txHash_object :
  let run := @x402_fetch (Reference.platform (Reference.scripted [inr Cases.object_txHash]))
               (Sample.runtime [inr Cases.object_txHash]) (Some Sample.get_args) in
  logged (trace run)
  = ["[x402-fetch] ========================================";
     "[x402-fetch] Fetching: GET https://example.org/resource";
     "[x402-fetch] Wallet: 0x00000000000000000000000000000000000000a1";
     "[x402-fetch] Response status: 200 OK";
     "[x402-fetch] Content-Type: text/plain";
     "[x402-fetch] ✅ PAYMENT MADE!";
     "[x402-fetch] Payment response (raw): "
       ++ "eyJhbW91bnQiOjUwMDAwMCwidHhIYXNoIjp7InRvU3RyaW5nIjoxfX0=";
     "[x402-fetch] Content length: 5 chars";
     "[x402-fetch] ========================================"] /\
  outcome run
  = inr (success Cases.object_txHash true
           (Some {| txHash := Obj [("toString", Num (of_Z 1))];
                    amount := Some "0.500000 USDC";
                    amountRaw := Num (of_Z 500000);
                    network := "Base Sepolia";
                    settled := Bool false |})
           "hello").
Proof. cbv zeta. split; vm_compute; reflexivity. Qed.

(** The sample runtime is the one [startup] builds from the sample
    environment. *)
Lemma sample_runtime_started (script : list (Error + Response)) :
  snd (@startup (Reference.platform (Reference.scripted script)) Sample.env)
  = Serving (Sample.runtime script).
Proof. reflexivity. Qed.

(** * Further properties of index.js *)

Import Catalog.

(** ** Startup *)

(** X1.  The top level writes the PRIVATE_KEY diagnostic and exits with
    code 1 exactly when PRIVATE_KEY is absent or the empty string: an empty
    key is refused like a missing one, and no other way of stopping produces
    this outcome. *)
Theorem key_diagnostic_iff_no_key `{Platform} (env : Environment) :
  startup env = ([ConsoleError "PRIVATE_KEY environment variable is required"], Exited 1)
  <-> (env "PRIVATE_KEY" = None \/ env "PRIVATE_KEY" = Some "").
Proof.
  unfold startup. split.
  - destruct (env "PRIVATE_KEY") as [[|c key]|]; [now right | | now left].
    cbn [truthy_opt nonempty negb the_string].
    destruct (privateKeyToAccount _) as [e | address]; [discriminate|].
    destruct (BigInt _) as [e | maxPayment]; [discriminate|].
    unfold main. cbn. destruct connect as [e | []]; cbn; discriminate.
  - intros [-> | ->]; reflexivity.
Qed.

Lemma key_diagnostic_iff_no_key_witness :
  @startup (Reference.platform (Reference.scripted [])) (Cases.with_key "" Cases.nothing)
  = ([ConsoleError "PRIVATE_KEY environment variable is required"], Exited 1).
Proof.
  apply (@key_diagnostic_iff_no_key (Reference.platform (Reference.scripted []))
           (Cases.with_key "" Cases.nothing)).
  right. reflexivity.
Defined.

(** X2.  With a key that [privateKeyToAccount] rejects, or a MAX_PAYMENT_USDC
    that [BigInt] rejects, the module throws at its top level: the process
    stops with that error before anything is written and before the server
    exists. *)
Theorem bad_configuration_crashes `{Platform} (env : Environment) (key : string)
  (e : Error) :
  env "PRIVATE_KEY" = Some key ->
  nonempty key = true ->
  (privateKeyToAccount key = inl e \/
   exists address, privateKeyToAccount key = inr address /\
                   BigInt (or_str (env "MAX_PAYMENT_USDC") "1000000") = inl e) ->
  startup env = ([], Crashed e).
Proof.
  intros K N Bad. unfold startup. rewrite K. cbn [truthy_opt the_string]. rewrite N.
  cbn [negb]. destruct Bad as [-> | [address [-> ->]]]; reflexivity.
Qed.

Lemma bad_configuration_crashes_witness :
  @startup (Reference.platform (Reference.scripted [])) Cases.bad_ceiling
  = ([], Crashed (mkError "Cannot convert 1 USDC to a BigInt")).
Proof.
  apply (@bad_configuration_crashes (Reference.platform (Reference.scripted []))
           Cases.bad_ceiling Sample.key); [reflexivity | reflexivity |].
  right. exists Sample.address. split; reflexivity.
Defined.

(** X3.  When the process reaches serving, its runtime is the configuration
    of the environment: the account of the key, NETWORK or "baseSepolia",
    the chain chosen by NETWORK === "base", the ceiling
    BigInt(MAX_PAYMENT_USDC || "1000000"), and [x402Fetch] wrapped around
    exactly that wallet and ceiling; the console shows the four start lines. *)
Theorem serving_runtime_is_the_configuration `{Platform} (env : Environment) w
  (rt : Runtime) :
  startup env = (w, Serving rt) ->
  exists key,
    env "PRIVATE_KEY" = Some key /\ nonempty key = true /\
    privateKeyToAccount key = inr (account_address rt) /\
    NETWORK rt = or_str (env "NETWORK") "baseSepolia" /\
    chain rt = (if String.eqb (NETWORK rt) "base" then base else baseSepolia) /\
    BigInt (or_str (env "MAX_PAYMENT_USDC") "1000000") = inr (maxPaymentUSDC rt) /\
    x402Fetch rt
    = Env.wrapFetchWithPayment (mkWallet (account_address rt) (chain rt))
        (maxPaymentUSDC rt) /\
    connect = inr tt /\
    logged w = ["[x402-fetch-mcp] Starting server...";
                "[x402-fetch-mcp] Wallet: " ++ account_address rt;
                "[x402-fetch-mcp] Network: " ++ chain_name (chain rt);
                "[x402-fetch-mcp] Server running on stdio"].
Proof.
  unfold startup. destruct (env "PRIVATE_KEY") as [key|]; [|discriminate].
  cbn [truthy_opt the_string]. destruct (nonempty key) eqn:N; [|discriminate].
  cbn [negb]. destruct (privateKeyToAccount key) as [e | address] eqn:A; [discriminate|].
  destruct (BigInt _) as [e | maxPayment] eqn:B; [discriminate|].
  unfold main. cbn. destruct connect as [e | []] eqn:Cn; cbn; [discriminate|].
  intros E. injection E as <- <-. exists key. cbn. repeat split; try reflexivity; assumption.
Qed.

Lemma serving_runtime_is_the_configuration_witness :
  maxPaymentUSDC (Sample.runtime []) = 1000000%Z /\
  NETWORK (Sample.runtime []) = "baseSepolia".
Proof.
  destruct (@serving_runtime_is_the_configuration
              (Reference.platform (Reference.scripted [])) Sample.env _
              (Sample.runtime []) eq_refl)
    as [key [_ [_ [_ [Nw _]]]]].
  split; [reflexivity | exact Nw].
Defined.

(** X4.  When connecting the transport fails, [main] rejects after its three
    announcement lines; the top level then writes the fatal-error line, the
    label followed by the error as the console prints it, and exits with
    code 1, and "Server running" is never written. *)
Theorem connect_failure_is_fatal `{Platform} (env : Environment) (key address : string)
  (ceiling : Z) (e : Error) :
  env "PRIVATE_KEY" = Some key ->
  nonempty key = true ->
  privateKeyToAccount key = inr address ->
  BigInt (or_str (env "MAX_PAYMENT_USDC") "1000000") = inr ceiling ->
  connect = inl e ->
  let chain := if String.eqb (or_str (env "NETWORK") "baseSepolia") "base"
               then base else baseSepolia in
  startup env =
  ([ConsoleError "[x402-fetch-mcp] Starting server...";
    ConsoleError ("[x402-fetch-mcp] Wallet: " ++ address);
    ConsoleError ("[x402-fetch-mcp] Network: " ++ chain_name chain);
    ConsoleError ("[x402-fetch-mcp] Fatal error: " ++ inspect e)], Exited 1).
Proof.
  intros K N A B Cn. cbv zeta. unfold startup. rewrite K.
  cbn [truthy_opt the_string]. rewrite N. cbn [negb]. rewrite A, B.
  unfold main. cbn. rewrite Cn. reflexivity.
Qed.

Lemma connect_failure_is_fatal_witness :
  @startup Cases.offline Sample.env =
  ([ConsoleError "[x402-fetch-mcp] Starting server...";
    ConsoleError "[x402-fetch-mcp] Wallet: 0x00000000000000000000000000000000000000a1";
    ConsoleError "[x402-fetch-mcp] Network: Base Sepolia";
    ConsoleError "[x402-fetch-mcp] Fatal error: Error: EPIPE"], Exited 1).
Proof.
  exact (@connect_failure_is_fatal Cases.offline Sample.env Sample.key Sample.address
           1000000 (mkError "EPIPE") eq_refl eq_refl eq_refl eq_refl eq_refl).
Defined.

(** ** The tools *)

(** X5.  After a successful start, x402_wallet_info answers with the account
    address, the NETWORK variable as it was given (or "baseSepolia") and the
    name of the chain in use, whatever arguments it is called with; it writes
    nothing, fetches nothing and is never an error.  The network it reports
    is the raw variable, so for a value other than "base" the chain beside
    it is Base Sepolia's. *)
Theorem wallet_info_reports_configuration `{Platform} (env : Environment) w
  (rt : Runtime) (args : option Args) :
  startup env = (w, Serving rt) ->
  call_tool rt (mkRequest "x402_wallet_info" args)
  = ret (wallet_info (account_address rt)
           (or_str (env "NETWORK") "baseSepolia")
           (chain_name (if String.eqb (or_str (env "NETWORK") "baseSepolia") "base"
                        then base else baseSepolia))).
Proof.
  intros S. rewrite <- (startup_chain env w rt S).
  assert (Nw : NETWORK rt = or_str (env "NETWORK") "baseSepolia").
  { revert S. unfold startup.
    destruct (negb (truthy_opt (env "PRIVATE_KEY"))); [discriminate|].
    destruct (privateKeyToAccount _) as [e | address]; [discriminate|].
    destruct (BigInt _) as [e | maxPayment]; [discriminate|].
    destruct (main _) as [w' [e | u]]; [discriminate|].
    intros E. now injection E as _ <-. }
  rewrite <- Nw. reflexivity.
Qed.

Lemma wallet_info_reports_configuration_witness :
  let P := Reference.platform (Reference.scripted []) in
  let rt := match snd (@startup P Cases.mainnet) with
            | Serving rt => rt
            | _ => Sample.runtime []
            end in
  @call_tool P rt (mkRequest "x402_wallet_info" None)
  = ret (wallet_info Sample.address "mainnet" "Base Sepolia").
Proof.
  cbv zeta.
  exact (@wallet_info_reports_configuration
           (Reference.platform (Reference.scripted [])) Cases.mainnet _ _ None eq_refl).
Defined.

Lemma name_is_listed (name : string) :
  In name (map tool_name tools) <-> name = "x402_fetch" \/ name = "x402_wallet_info".
Proof.
  cbn. split.
  - intros [<- | [<- | []]]; [now left | now right].
  - intros [-> | ->]; [now left | right; now left].
Qed.

(** X6.  The catalogue and the dispatcher agree: a call whose name is not
    among the announced tools is answered, without any effect, by the error
    result "Unknown tool: <name>", and a call whose name is announced is
    never answered that way. *)
Theorem dispatch_agrees_with_catalogue `{Platform} (rt : Runtime)
  (request : CallToolRequest) :
  (~ In (req_name request) (map tool_name tools) ->
   call_tool rt request = ret (unknown_tool (req_name request))) /\
  (In (req_name request) (map tool_name tools) ->
   forall result, outcome (call_tool rt request) = inr result ->
                  forall s, text result <> Plain s).
Proof.
  destruct request as [name args]. cbn [req_name]. rewrite name_is_listed.
  unfold call_tool. cbn [req_name req_arguments]. split.
  - intros N.
    destruct (String.eqb_spec name "x402_fetch") as [-> | _]; [exfalso; auto|].
    destruct (String.eqb_spec name "x402_wallet_info") as [-> | _]; [exfalso; auto|].
    reflexivity.
  - intros [-> | ->] result O s; cbn in O.
    + destruct args as [a|]; [|discriminate O].
      rewrite x402_fetch_eq in O.
      destruct (outcome (fetch_body rt (arg_url a) (method_of a) (headers_of a) (arg_body a)))
        as [e | r] eqn:B.
      * rewrite (outcome_try_catch_throw _ _ e B) in O. cbn in O.
        injection O as <-. discriminate.
      * rewrite (outcome_try_catch_return _ _ r B) in O. injection O as <-.
        revert B. clear.
        destruct (x402Fetch rt (arg_url a) (request_of a)) as [e | response] eqn:E.
        { destruct (fetch_body_fetch_throws rt _ _ _ _ e E) as [-> _]. discriminate. }
        destruct (outcome (read_content response (contentType response)))
          as [e | content] eqn:C.
        { destruct (fetch_body_content_throws rt _ _ _ _ response e E C) as [-> _].
          discriminate. }
        destruct (payment_info_returns rt (actualPaymentResponse response)) as [w [p I]].
        destruct (fetch_body_returns rt _ _ _ _ _ _ _ _ E C I) as [-> _].
        intros R. injection R as <-. discriminate.
    + injection O as <-. discriminate.
Qed.

Lemma dispatch_agrees_with_catalogue_witness :
  @call_tool (Reference.platform (Reference.scripted [])) (Sample.runtime [])
    (mkRequest "x402_pay" None)
  = ret (unknown_tool "x402_pay").
Proof.
  apply (@dispatch_agrees_with_catalogue (Reference.platform (Reference.scripted []))
           (Sample.runtime []) (mkRequest "x402_pay" None)).
  cbn. intros [D | [D | []]]; discriminate D.
Defined.

(** X7.  The schema of x402_fetch and its handler agree: the schema requires
    [url] alone and declares a default for [method], and a call that supplies
    only [url] issues one request with exactly that default method, no
    headers and no body. *)
Theorem schema_defaults_are_applied `{Platform} (rt : Runtime) (t : Tool) :
  In t tools -> tool_name t = "x402_fetch" ->
  schema_required t = Some ["url"] /\
  exists method,
    default_of t "method" = Some method /\
    forall url,
      issued (trace (x402_fetch rt (Some (mkArgs url None None None))))
      = [(url, mkOptions method [] None)].
Proof.
  intros [<- | [<- | []]] Nm; [|discriminate Nm].
  split; [reflexivity|]. exists "GET". split; [reflexivity|].
  intros url. rewrite x402_fetch_issues_one. reflexivity.
Qed.

Lemma schema_defaults_are_applied_witness :
  exists method,
    issued (trace (@x402_fetch (Reference.platform (Reference.scripted [inr Sample.free]))
                     (Sample.runtime [inr Sample.free])
                     (Some (mkArgs "https://example.org/resource" None None None))))
    = [("https://example.org/resource", mkOptions method [] None)].
Proof.
  destruct (@schema_defaults_are_applied
              (Reference.platform (Reference.scripted [inr Sample.free]))
              (Sample.runtime [inr Sample.free]) (hd (mkTool "" "" "" [] None) tools)
              (or_introl eq_refl) eq_refl) as [_ [method [_ I]]].
  exists method. apply I.
Defined.

(** X8.  A tool call hands at most one request to [x402Fetch]: exactly one
    for x402_fetch with arguments, none for every other call. *)
Theorem at_most_one_request_per_call `{Platform} (rt : Runtime)
  (request : CallToolRequest) :
  issued (trace (call_tool rt request)) =
  match req_arguments request with
  | Some a => if String.eqb (req_name request) "x402_fetch"
              then [(arg_url a, request_of a)] else []
  | None => []
  end.
Proof.
  destruct request as [name args]. unfold call_tool. cbn [req_name req_arguments].
  destruct (String.eqb name "x402_fetch").
  - destruct args as [a|]; [apply x402_fetch_issues_one | reflexivity].
  - destruct (String.eqb name "x402_wallet_info"); now destruct args.
Qed.

(** X9.  The handler throws in one case only, x402_fetch called without
    arguments, where the destructuring on line 100 precedes the [try]; it
    then has neither written nor fetched anything.  Every other call returns
    a result. *)
Theorem throws_only_without_arguments `{Platform} (rt : Runtime)
  (request : CallToolRequest) :
  ((exists e, outcome (call_tool rt request) = inl e) <->
   (req_name request = "x402_fetch" /\ req_arguments request = None)) /\
  (req_name request = "x402_fetch" -> req_arguments request = None ->
   trace (call_tool rt request) = []).
Proof.
  destruct request as [name args]. unfold call_tool. cbn [req_name req_arguments].
  split.
  - split.
    + intros [e O]. destruct (String.eqb_spec name "x402_fetch") as [-> | _].
      * split; [reflexivity|]. now apply (x402_fetch_throws_only_without_arguments rt args e).
      * destruct (String.eqb name "x402_wallet_info"); discriminate O.
    + intros [-> ->]. cbn. eauto.
  - intros -> ->. reflexivity.
Qed.

Lemma throws_only_without_arguments_witness :
  trace (@call_tool (Reference.platform (Reference.scripted [])) (Sample.runtime [])
           (mkRequest "x402_fetch" None)) = [].
Proof.
  apply (@throws_only_without_arguments (Reference.platform (Reference.scripted []))
           (Sample.runtime []) (mkRequest "x402_fetch" None)); reflexivity.
Defined.

(** ** The outcome of a fetch *)

(** X10.  The HTTP status plays no part in the verdict: whenever [x402Fetch]
    resolves and the content can be read, the result is the success outcome
    carrying the status and status text of the response unchanged, with
    [isError] unset, whatever the status is. *)
Theorem status_is_reported_not_judged `{Platform} (rt : Runtime) (a : Args)
  (response : Response) (content : string) :
  x402Fetch rt (arg_url a) (request_of a) = inr response ->
  outcome (read_content response (contentType response)) = inr content ->
  exists result paymentMade payment,
    outcome (x402_fetch rt (Some a)) = inr result /\
    isError result = false /\
    text result = OutcomeJson (Success (status response) (statusText response)
                                 paymentMade payment content).
Proof.
  intros E C.
  destruct (payment_info_returns rt (actualPaymentResponse response)) as [w [p I]].
  destruct (x402_fetch_returns rt a response content w p E C I) as [O _].
  eexists. eexists. eexists. split; [exact O|]. split; reflexivity.
Qed.

Lemma status_is_reported_not_judged_witness :
  exists result paymentMade payment,
    outcome (@x402_fetch (Reference.platform (Reference.scripted [inr Cases.server_error]))
               (Sample.runtime [inr Cases.server_error]) (Some Sample.get_args))
    = inr result /\
    isError result = false /\
    text result = OutcomeJson (Success 500 "Internal Server Error" paymentMade payment "oops").
Proof.
  exact (@status_is_reported_not_judged
           (Reference.platform (Reference.scripted [inr Cases.server_error]))
           (Sample.runtime [inr Cases.server_error]) Sample.get_args
           Cases.server_error "oops" eq_refl eq_refl).
Defined.

(** X11.  A response that announces JSON but whose body [JSON.parse] rejects
    ends the call in the failure outcome with the parser's message, even
    when it carries a settlement header: the handler stops after the
    Content-Type line, so the header is never examined and no payment is
    reported or logged. *)
Theorem unparsable_json_body_fails `{Platform} (rt : Runtime) (a : Args)
  (response : Response) (t : string) (e : Error) :
  x402Fetch rt (arg_url a) (request_of a) = inr response ->
  includes "application/json" (contentType response) = true ->
  body response = inr t ->
  JSON_parse t = inl e ->
  outcome (x402_fetch rt (Some a)) = inr (failure e) /\
  logged (trace (x402_fetch rt (Some a))) =
  ["[x402-fetch] ========================================";
   "[x402-fetch] Fetching: " ++ method_of a ++ " " ++ arg_url a;
   "[x402-fetch] Wallet: " ++ account_address rt;
   "[x402-fetch] Response status: " ++ string_of_Z (status response) ++ " " ++
     statusText response;
   "[x402-fetch] Content-Type: " ++ contentType response].
Proof.
  intros E J B P. rewrite x402_fetch_eq. unfold fetch_body. fold (request_of a).
  assert (R : read_content response (contentType response) = ([], inl e)).
  { unfold read_content. rewrite J, B. cbn. now rewrite P. }
  cbn. rewrite E. cbn. fold (contentType response). rewrite R. cbn.
  split; reflexivity.
Qed.

Lemma unparsable_json_body_fails_witness :
  outcome (@x402_fetch (Reference.platform (Reference.scripted [inr Cases.broken_json]))
             (Sample.runtime [inr Cases.broken_json]) (Some Sample.get_args))
  = inr (failure (mkError "Unexpected token in JSON")) /\
  get (headers Cases.broken_json) primary = Some Sample.settled_header.
Proof.
  split; [|reflexivity].
  apply (@unparsable_json_body_fails
           (Reference.platform (Reference.scripted [inr Cases.broken_json]))
           (Sample.runtime [inr Cases.broken_json]) Sample.get_args Cases.broken_json
           "<html>"); reflexivity.
Defined.

(** X12.  A body stream that breaks while it is read ends the call in the
    failure outcome with the stream's error, under every content type. *)
Theorem broken_body_stream_fails `{Platform} (rt : Runtime) (a : Args)
  (response : Response) (e : Error) :
  x402Fetch rt (arg_url a) (request_of a) = inr response ->
  body response = inl e ->
  outcome (x402_fetch rt (Some a)) = inr (failure e).
Proof.
  intros E B. rewrite x402_fetch_eq.
  assert (C : outcome (read_content response (contentType response)) = inl e).
  { unfold read_content. rewrite B. now destruct (includes _ _). }
  destruct (fetch_body_content_throws rt _ _ _ _ response e E C) as [O _].
  now rewrite (outcome_try_catch_throw _ _ e O).
Qed.

Lemma broken_body_stream_fails_witness :
  outcome (@x402_fetch (Reference.platform (Reference.scripted [inr Cases.broken_stream]))
             (Sample.runtime [inr Cases.broken_stream]) (Some Sample.get_args))
  = inr (failure (mkError "terminated")).
Proof.
  apply (@broken_body_stream_fails
           (Reference.platform (Reference.scripted [inr Cases.broken_stream]))
           (Sample.runtime [inr Cases.broken_stream]) Sample.get_args Cases.broken_stream);
    reflexivity.
Defined.

(** ** Receipts of unusual shape *)

(** X13.  A settlement header that decodes and parses to JSON [null] is
    treated like an unparsable one: reading [decoded.amount] throws inside
    the inner [try], the raw header is logged, and the outcome is a success
    with [paymentMade: true] and [payment: null]. *)
Theorem null_receipt_is_caught `{Platform} (rt : Runtime) (a : Args)
  (response : Response) (content header raw : string) :
  x402Fetch rt (arg_url a) (request_of a) = inr response ->
  outcome (read_content response (contentType response)) = inr content ->
  actualPaymentResponse response = Some header ->
  nonempty header = true ->
  atob header = inr raw ->
  JSON_parse raw = inr Null ->
  In (ConsoleError (raw_line header)) (trace (x402_fetch rt (Some a))) /\
  outcome (x402_fetch rt (Some a)) = inr (success response true None content).
Proof.
  intros E C A N E1 E2.
  destruct (decode_payment_null_throws rt header raw Null E1 E2 eq_refl) as [e D].
  pose proof (payment_info_caught rt header [] e N D) as I.
  rewrite <- A in I.
  destruct (x402_fetch_returns rt a response content _ _ E C I) as [O L].
  split.
  - apply L. now left.
  - rewrite O, A. cbn [truthy_opt]. now rewrite N.
Qed.

Lemma null_receipt_is_caught_witness :
  let run := @x402_fetch (Reference.platform (Reference.scripted [inr Cases.null_receipt]))
               (Sample.runtime [inr Cases.null_receipt]) (Some Sample.get_args) in
  In (ConsoleError "[x402-fetch] Payment response (raw): bnVsbA==") (trace run) /\
  outcome run = inr (success Cases.null_receipt true None "hello").
Proof.
  cbv zeta.
  apply (@null_receipt_is_caught
           (Reference.platform (Reference.scripted [inr Cases.null_receipt]))
           (Sample.runtime [inr Cases.null_receipt]) Sample.get_args Cases.null_receipt
           "hello" "bnVsbA==" "null"); reflexivity.
Defined.

(** X14.  A receipt whose amount is missing or falsy (0, the empty string,
    [false], [null]) still counts as a payment, but both [amount] and
    [amountRaw] of the payment are [null]: a zero amount is not reported as
    "0.000000 USDC". *)
Theorem falsy_amount_is_reported_null `{Platform} (rt : Runtime) (a : Args)
  (response : Response) (content header raw : string) (decoded : value) :
  x402Fetch rt (arg_url a) (request_of a) = inr response ->
  outcome (read_content response (contentType response)) = inr content ->
  actualPaymentResponse response = Some header ->
  nonempty header = true ->
  atob header = inr raw ->
  JSON_parse raw = inr decoded ->
  nullish decoded = false ->
  truthy (prop decoded "amount") = false ->
  exists p,
    outcome (x402_fetch rt (Some a)) = inr (success response true (Some p) content) /\
    amount p = None /\ amountRaw p = Null.
Proof.
  intros E C A N E1 E2 D F.
  rewrite (x402_fetch_decoded rt a response content header raw decoded None
             E C A N E1 E2 D (amountUsdc_falsy _ F)).
  eexists. split; [reflexivity|]. cbn [amount amountRaw]. unfold or. now rewrite F.
Qed.

Lemma falsy_amount_is_reported_null_witness :
  exists p,
    outcome (@x402_fetch (Reference.platform (Reference.scripted [inr Cases.zero_amount]))
               (Sample.runtime [inr Cases.zero_amount]) (Some Sample.get_args))
    = inr (success Cases.zero_amount true (Some p) "hello") /\
    amount p = None /\ amountRaw p = Null.
Proof.
  exact (@falsy_amount_is_reported_null
           (Reference.platform (Reference.scripted [inr Cases.zero_amount]))
           (Sample.runtime [inr Cases.zero_amount]) Sample.get_args Cases.zero_amount
           "hello" "eyJhbW91bnQiOjB9" _ _
           eq_refl eq_refl eq_refl eq_refl eq_refl eq_refl eq_refl eq_refl).
Defined.

(** X15.  A settlement header that decodes to a JSON value that is not an
    object (a number, a string, a boolean, an array) is accepted as a
    payment: the outcome has [paymentMade: true] and payment information
    with [txHash], [amount] and [amountRaw] null, [settled] false and the
    configured network. *)
Theorem non_object_receipt_is_empty_payment `{Platform} (rt : Runtime) (a : Args)
  (response : Response) (content header raw : string) (decoded : value) :
  x402Fetch rt (arg_url a) (request_of a) = inr response ->
  outcome (read_content response (contentType response)) = inr content ->
  actualPaymentResponse response = Some header ->
  nonempty header = true ->
  atob header = inr raw ->
  JSON_parse raw = inr decoded ->
  nullish decoded = false ->
  (forall props, decoded <> Obj props) ->
  outcome (x402_fetch rt (Some a))
  = inr (success response true
           (Some {| txHash := Null; amount := None; amountRaw := Null;
                    network := chain_name (chain rt); settled := Bool false |})
           content).
Proof.
  intros E C A N E1 E2 D NO.
  assert (Pr : forall k, prop decoded k = Undefined).
  { intros k. destruct decoded; try reflexivity. now contradiction (NO props). }
  rewrite (x402_fetch_decoded rt a response content header raw decoded None
             E C A N E1 E2 D); [|now rewrite Pr].
  now rewrite !Pr.
Qed.

Lemma non_object_receipt_is_empty_payment_witness :
  outcome (@x402_fetch (Reference.platform (Reference.scripted [inr Cases.number_receipt]))
             (Sample.runtime [inr Cases.number_receipt]) (Some Sample.get_args))
  = inr (success Cases.number_receipt true
           (Some {| txHash := Null; amount := None; amountRaw := Null;
                    network := "Base Sepolia"; settled := Bool false |})
           "hello").
Proof.
  apply (@non_object_receipt_is_empty_payment
           (Reference.platform (Reference.scripted [inr Cases.number_receipt]))
           (Sample.runtime [inr Cases.number_receipt]) Sample.get_args
           Cases.number_receipt "hello" "NQ==" "5" (Num (of_Z 5)));
    try reflexivity.
  intros props D. discriminate D.
Defined.

(** X16.  An amount given as a non-empty string goes through [Number]: when
    the string reads as an integer [n] with [0 < |n| < 2^52] the payment's
    amount is exactly [n] millionths followed by " USDC", and [amountRaw]
    keeps the string itself. *)
Theorem numeric_string_amount `{Platform} (rt : Runtime) (a : Args)
  (response : Response) (content header raw : string) (decoded : value)
  (s : string) (n : Z) :
  x402Fetch rt (arg_url a) (request_of a) = inr response ->
  outcome (read_content response (contentType response)) = inr content ->
  actualPaymentResponse response = Some header ->
  nonempty header = true ->
  atob header = inr raw ->
  JSON_parse raw = inr decoded ->
  prop decoded "amount" = Str s ->
  nonempty s = true ->
  StringToNumber s = of_Z n ->
  n <> 0%Z -> (Z.abs n < 2 ^ 52)%Z ->
  exists p,
    outcome (x402_fetch rt (Some a)) = inr (success response true (Some p) content) /\
    amount p = Some (millionths n ++ " USDC") /\
    amountRaw p = Str s.
Proof.
  intros E C A N E1 E2 Am T Sn Nz B.
  assert (D : nullish decoded = false).
  { destruct decoded; try reflexivity; discriminate Am. }
  assert (U : outcome (amountUsdc (prop decoded "amount"))
              = inr (Some (toFixed6 (div (StringToNumber s) (of_Z 1000000))))).
  { rewrite Am. exact (amountUsdc_converted (Str s) _ T eq_refl). }
  rewrite (x402_fetch_decoded rt a response content header raw decoded _
             E C A N E1 E2 D U).
  eexists. split; [reflexivity|]. cbn [amount amountRaw].
  rewrite toFixed6_nonempty, Am. unfold or.
  cbn [truthy]. rewrite T, Sn, (toFixed6_of_integer n Nz B). split; reflexivity.
Qed.

Lemma numeric_string_amount_witness :
  exists p,
    outcome (@x402_fetch (Reference.platform (Reference.scripted [inr Cases.string_amount]))
               (Sample.runtime [inr Cases.string_amount]) (Some Sample.get_args))
    = inr (success Cases.string_amount true (Some p) "hello") /\
    amount p = Some "0.500000 USDC" /\
    amountRaw p = Str "500000".
Proof.
  exact (@numeric_string_amount
           (Reference.platform (Reference.scripted [inr Cases.string_amount]))
           (Sample.runtime [inr Cases.string_amount]) Sample.get_args Cases.string_amount
           "hello" "eyJhbW91bnQiOiI1MDAwMDAifQ==" _ _ "500000" 500000%Z
           eq_refl eq_refl eq_refl eq_refl eq_refl eq_refl eq_refl eq_refl eq_refl
           ltac:(discriminate) eq_refl).
Defined.

(** X17.  An amount string that [Number] cannot read gives NaN, and the
    payment's amount is then the text "NaN USDC"; [amountRaw] keeps the
    string. *)
Theorem non_numeric_string_amount `{Platform} (rt : Runtime) (a : Args)
  (response : Response) (content header raw : string) (decoded : value) (s : string) :
  x402Fetch rt (arg_url a) (request_of a) = inr response ->
  outcome (read_content response (contentType response)) = inr content ->
  actualPaymentResponse response = Some header ->
  nonempty header = true ->
  atob header = inr raw ->
  JSON_parse raw = inr decoded ->
  prop decoded "amount" = Str s ->
  nonempty s = true ->
  StringToNumber s = S754_nan ->
  exists p,
    outcome (x402_fetch rt (Some a)) = inr (success response true (Some p) content) /\
    amount p = Some "NaN USDC" /\
    amountRaw p = Str s.
Proof.
  intros E C A N E1 E2 Am T Sn.
  assert (D : nullish decoded = false).
  { destruct decoded; try reflexivity; discriminate Am. }
  assert (U : outcome (amountUsdc (prop decoded "amount"))
              = inr (Some (toFixed6 (div (StringToNumber s) (of_Z 1000000))))).
  { rewrite Am. exact (amountUsdc_converted (Str s) _ T eq_refl). }
  rewrite (x402_fetch_decoded rt a response content header raw decoded _
             E C A N E1 E2 D U).
  eexists. split; [reflexivity|]. cbn [amount amountRaw].
  rewrite toFixed6_nonempty, Am. unfold or.
  cbn [truthy]. rewrite T, Sn. split; reflexivity.
Qed.

Lemma non_numeric_string_amount_witness :
  exists p,
    outcome (@x402_fetch (Reference.platform (Reference.scripted [inr Cases.word_amount]))
               (Sample.runtime [inr Cases.word_amount]) (Some Sample.get_args))
    = inr (success Cases.word_amount true (Some p) "hello") /\
    amount p = Some "NaN USDC" /\
    amountRaw p = Str "abc".
Proof.
  exact (@non_numeric_string_amount
           (Reference.platform (Reference.scripted [inr Cases.word_amount]))
           (Sample.runtime [inr Cases.word_amount]) Sample.get_args Cases.word_amount
           "hello" "eyJhbW91bnQiOiJhYmMifQ==" _ _ "abc"
           eq_refl eq_refl eq_refl eq_refl eq_refl eq_refl eq_refl eq_refl eq_refl).
Defined.

(** ** The request *)

(** X18.  The request handed to [x402Fetch] has a body exactly when the body
    argument is a non-empty string and the method is "POST", "PUT" or
    "PATCH", spelled so; then it is the argument unchanged.  An empty body is
    dropped even with POST, and the supplied headers are passed on as they
    are. *)
Theorem request_body_exactly `{Platform} (rt : Runtime) (a : Args) :
  exists init,
    issued (trace (x402_fetch rt (Some a))) = [(arg_url a, init)] /\
    opt_headers init = headers_of a /\
    (forall b,
        opt_body init = Some b <->
        (arg_body a = Some b /\ b <> "" /\
         (method_of a = "POST" \/ method_of a = "PUT" \/ method_of a = "PATCH"))).
Proof.
  exists (request_of a). split; [apply x402_fetch_issues_one|].
  unfold request_of. split; [unfold fetchOptions; now destruct (_ && _)%bool|].
  intros b. rewrite fetchOptions_body. split.
  - destruct (arg_body a) as [[|c b']|]; cbn; try discriminate.
    destruct (String.eqb_spec (method_of a) "POST") as [-> | _]; cbn.
    { intros E. injection E as <-. repeat split; [discriminate | now left]. }
    destruct (String.eqb_spec (method_of a) "PUT") as [-> | _]; cbn.
    { intros E. injection E as <-. repeat split; [discriminate | right; now left]. }
    destruct (String.eqb_spec (method_of a) "PATCH") as [-> | _]; cbn; [|discriminate].
    intros E. injection E as <-. repeat split; [discriminate | right; now right].
  - intros [-> [Ne M]]. destruct b as [|c b']; [now contradiction Ne|]. cbn.
    destruct M as [-> | [-> | ->]]; reflexivity.
Qed.

Lemma request_body_exactly_witness :
  exists init,
    issued (trace (@x402_fetch (Reference.platform (Reference.scripted [inr Sample.free]))
                     (Sample.runtime [inr Sample.free])
                     (Some (mkArgs "https://example.org/resource" (Some "POST") None (Some "")))))
    = [("https://example.org/resource", init)] /\
    opt_body init = None.
Proof.
  destruct (@request_body_exactly
              (Reference.platform (Reference.scripted [inr Sample.free]))
              (Sample.runtime [inr Sample.free])
              (mkArgs "https://example.org/resource" (Some "POST") None (Some "")))
    as [init [I [_ B]]].
  exists init. split; [exact I|].
  destruct (opt_body init) as [b|] eqn:O; [|reflexivity].
  destruct (proj1 (B b) eq_refl) as [Eb [Ne _]].
  injection Eb as <-. now contradiction Ne.
Defined.
